(** * oauth2lib: the authorization-code grant of [oauth2/provider.py]

    A shallow embedding of the classes [Provider] and
    [AuthorizationProvider].  Methods that a subclass supplies (the host
    hooks) may read and change the host's own state and may raise, so the
    operations live in a state-and-exception monad that also records, as a
    ghost trace, every hook invocation with its arguments and outcome and
    every exception handed to the logger. *)

From stdpp Require Import gmap strings list fin_maps pretty.
From Stdlib Require Import ZArith Ascii.

Set Warnings "-register-all".
#[local] Open Scope Z_scope.

(** ** Exceptions

    The code is Python 2: [except StandardError] catches the built-in error
    classes ([TypeError], [KeyError], [NotImplementedError] through
    [RuntimeError], ...), and does not catch classes that derive from
    [Exception] directly, as exceptions defined by a host usually do. *)

Inductive exn :=
| TypeError (msg : string)
| KeyError (key : string)
| NotImplementedError (msg : string)
| StandardError (cls : string)   (* any further class below StandardError *)
| Exception (cls : string).      (* a class outside StandardError *)

Definition isinstance_TypeError (e : exn) : bool :=
  match e with TypeError _ => true | _ => false end.

Definition isinstance_StandardError (e : exn) : bool :=
  match e with Exception _ => false | _ => true end.

Inductive outcome (A : Type) :=
| Return (a : A)
| Raise (e : exn).
Arguments Return {A} a.
Arguments Raise {A} e.

Definition outcome_map {A B} (f : A → B) (o : outcome A) : outcome B :=
  match o with Return a => Return (f a) | Raise e => Raise e end.

(** ** Data *)

(** What [json.dumps] is given. *)
Inductive json :=
| JNull
| JBool (b : bool)
| JInt (z : Z)
| JStr (s : string)
| JList (l : list json)
| JDict (d : gmap string json).

(** [requests.Response], as far as the provider fills it in: the status
    code, the header mapping and the body behind [raw]. *)
Record Response := mkResponse {
  status_code : Z;
  headers : gmap string string;
  raw : string
}.

(** ** The ghost trace *)

(** A hook invocation with the arguments it was given. *)
Inductive call :=
| CValidateClientId (client_id : string)
| CValidateClientSecret (client_id client_secret : string)
| CValidateScope (client_id scope : string)
| CValidateAccess
| CValidateAuthorizationCode (client_id code : string)
| CPersistAuthorizationCode (client_id code scope : string)
| CPersistTokenInformation (client_id code scope access_token token_type : string)
    (expires_in : Z) (refresh_token : string)
| CTokenType
| CTokenExpiresIn
| CGenerateAuthorizationCode
| CGenerateAccessToken
| CGenerateRefreshToken.

Inductive value :=
| VBool (b : bool)
| VStr (s : string)
| VInt (z : Z)
| VNone.

Inductive event :=
| Invoked (c : call) (r : outcome value)
| Logged (e : exn).

Definition is_validation (c : call) : bool :=
  match c with
  | CValidateClientId _ | CValidateClientSecret _ _ | CValidateScope _ _
  | CValidateAccess | CValidateAuthorizationCode _ _ => true
  | _ => false
  end.

Definition is_persist (c : call) : bool :=
  match c with
  | CPersistAuthorizationCode _ _ _ | CPersistTokenInformation _ _ _ _ _ _ _ => true
  | _ => false
  end.

Definition is_generator (c : call) : bool :=
  match c with
  | CGenerateAuthorizationCode | CGenerateAccessToken | CGenerateRefreshToken => true
  | _ => false
  end.

Definition is_persist_authorization_code (ev : event) : bool :=
  match ev with Invoked (CPersistAuthorizationCode _ _ _) _ => true | _ => false end.

Definition is_persist_token_information (ev : event) : bool :=
  match ev with Invoked (CPersistTokenInformation _ _ _ _ _ _ _) _ => true | _ => false end.

(** The events of a call that are invocations of a hook satisfying [p]. *)
Definition invokes (p : call → bool) (ev : event) : bool :=
  match ev with Invoked c _ => p c | Logged _ => false end.

(** Hook [c] raised [e]. *)
Definition faulted (e : exn) (t : list event) : Prop :=
  ∃ c, Invoked c (Raise e) ∈ t.

(** ** The monad of provider methods *)

(** A method of the host: it sees and may change the host's state [S]. *)
Definition hook (S A : Type) : Type := S → outcome A * S.

Definition M (S A : Type) : Type := S → outcome A * S * list event.

Definition result {S A} (r : outcome A * S * list event) : outcome A := r.1.1.
Definition final {S A} (r : outcome A * S * list event) : S := r.1.2.
Definition trace {S A} (r : outcome A * S * list event) : list event := r.2.

(** The run [r] of a continuation, after the events [t] of what came
    before it. *)
Definition after {S A} (t : list event) (r : outcome A * S * list event)
    : outcome A * S * list event :=
  (result r, final r, t ++ trace r).

Section Monad.
Context {S : Type}.

Definition ret {A} (a : A) : M S A := λ s, (Return a, s, []).

Definition raise {A} (e : exn) : M S A := λ s, (Raise e, s, []).

Definition bind {A B} (m : M S A) (k : A → M S B) : M S B := λ s,
  match m s with
  | (Return a, s1, t1) => after t1 (k a s1)
  | (Raise e, s1, t1) => (Raise e, s1, t1)
  end.

(** [try: body except ...]: [handler e] is the body of the first clause
    whose class [e] is an instance of, if there is one. *)
Definition try_except {A} (body : M S A) (handler : exn → option (M S A)) : M S A := λ s,
  match body s with
  | (Return a, s1, t1) => (Return a, s1, t1)
  | (Raise e, s1, t1) =>
      match handler e with
      | Some h => after t1 (h s1)
      | None => (Raise e, s1, t1)
      end
  end.

(** [self.hook(args)], recorded in the trace. *)
Definition invoke {A} (c : call) (inj : A → value) (h : hook S A) : M S A := λ s,
  let '(r, s1) := h s in (r, s1, [Invoked c (outcome_map inj r)]).

(** [d[k]] *)
Definition getitem {V} (d : gmap string V) (k : string) : M S V :=
  match d !! k with
  | Some v => ret v
  | None => raise (KeyError k)
  end.
End Monad.

Notation "'let*' x := m 'in' k" := (bind m (λ x, k))
  (at level 10, x name, m at level 100, k at level 200,
   format "'[v' 'let*'  x  :=  m  'in' '/' k ']'").

(** ** Python's dict and the header mapping of requests

    A Python 2 dict enumerates its items in an order the language leaves
    open, and [Response.headers] is a [CaseInsensitiveDict]: it keeps one
    entry for a name, whatever the case the name is written in. *)

(** An enumeration of the dicts of strings: the items of a dict, each
    once.  The provider is verified for any of them. *)
Class DictOrder := {
  dict_items : gmap string string → list (string * string);
  dict_items_perm d : dict_items d ≡ₚ map_to_list d
}.

(** [str.lower()] *)
Definition lower_ascii (c : ascii) : ascii :=
  let n := N_of_ascii c in
  if (65 <=? n)%N && (n <=? 90)%N then ascii_of_N (n + 32) else c.

Fixpoint lower (s : string) : string :=
  match s with
  | EmptyString => EmptyString
  | String c r => String (lower_ascii c) (lower r)
  end.

(** [CaseInsensitiveDict.__setitem__]: the entry takes the place of the one
    under the same name in any case, and the name is kept as it is
    written now. *)
Definition ci_setitem (key value : string) (h : gmap string string) : gmap string string :=
  <[key := value]> (filter (λ kv, lower kv.1 ≠ lower key) h).

(** [CaseInsensitiveDict.__getitem__] *)
Definition ci_getitem (key : string) (h : gmap string string) : option string :=
  snd <$> head (filter (λ kv, lower kv.1 = lower key) (map_to_list h)).

(** [CaseInsensitiveDict.update(d)] for a dict [d]: the items of [d] are
    set one by one, in the order [d] enumerates them. *)
Definition ci_update `{DictOrder} (d h : gmap string string) : gmap string string :=
  foldl (λ h kv, ci_setitem kv.1 kv.2 h) h (dict_items d).

(** No two names of [d] differ in case only. *)
Definition case_distinct (d : gmap string string) : Prop :=
  NoDup (lower <$> (map_to_list d).*1).

(** ** class Provider *)

Section Provider.
Context {S : Type} {order : DictOrder}.

(** [utils.build_url], [utils.url_query_params] and [json.dumps] are not
    part of [provider.py]; the provider is verified for any of them. *)
Variable build_url : string → gmap string (option string) → string.
Variable url_query_params : string → gmap string string.
Variable json_dumps : json → string.

(** [logger.exception(exc)] *)
Definition _handle_exception (exc : exn) : M S unit := λ s,
  (Return (), s, [Logged exc]).

(** [headers=None] is [None]; a fresh [Response] has no headers, and
    [res.headers.update(headers)] merges the dict into them. *)
Definition _make_response (body : string) (headers : option (gmap string string))
    (status_code : Z) : Response :=
  {| status_code := status_code;
     headers := match headers with Some h => ci_update h ∅ | None => ∅ end;
     raw := body |}.

Definition _make_redirect_error_response (redirect_uri err : string) : Response :=
  let params : gmap string (option string) :=
    {[ "error" := Some err;
       "response_type" := None;
       "client_id" := None;
       "redirect_uri" := None ]} in
  let redirect := build_url redirect_uri params in
  _make_response EmptyString (Some {[ "Location" := redirect ]}) 302.

Definition _make_json_response (data : json) (headers : option (gmap string string))
    (status_code : Z) : Response :=
  let response_headers : gmap string string := ∅ in
  let response_headers :=
    match headers with Some h => h ∪ response_headers | None => response_headers end in
  let response_headers := <["Content-Type" := "application/json;charset=UTF-8"]> response_headers in
  let response_headers := <["Cache-Control" := "no-store"]> response_headers in
  let response_headers := <["Pragma" := "no-cache"]> response_headers in
  _make_response (json_dumps data) (Some response_headers) status_code.

Definition _make_json_error_response (err : string) : Response :=
  _make_json_response (JDict {[ "error" := JStr err ]}) None 400.

Definition _missing_redirect_uri_response : Response :=
  _make_json_error_response "invalid_request".

(** ** class AuthorizationProvider

    The methods a subclass must or may override, as the instance resolves
    them. *)
Record AuthorizationProvider := {
  validate_client_id : string → hook S bool;
  validate_client_secret : string → string → hook S bool;
  validate_scope : string → string → hook S bool;
  validate_access : hook S bool;
  validate_authorization_code : string → string → hook S bool;
  persist_authorization_code : string → string → string → hook S unit;
  persist_token_information :
    string → string → string → string → string → Z → string → hook S unit;
  token_length : hook S Z;
  token_type : hook S string;
  token_expires_in : hook S Z;
  generate_authorization_code : hook S string;
  generate_access_token : hook S string;
  generate_refresh_token : hook S string
}.

(** [params.get('scope', '')] *)
Definition get_scope (params : gmap string string) : string :=
  default EmptyString (params !! "scope").

Definition get_authorization_code (self : AuthorizationProvider)
    (response_type client_id redirect_uri : string)
    (params : gmap string string) : M S Response :=
  (* Ensure proper response_type *)
  if decide (response_type ≠ "code") then
    let err := "unsupported_response_type" in
    ret (_make_redirect_error_response redirect_uri err)
  else
  (* Check conditions *)
  let* is_valid_client_id :=
    invoke (CValidateClientId client_id) VBool (validate_client_id self client_id) in
  let* is_valid_access := invoke CValidateAccess VBool (validate_access self) in
  let scope := get_scope params in
  let* is_valid_scope :=
    invoke (CValidateScope client_id scope) VBool (validate_scope self client_id scope) in
  (* Return proper error responses on invalid conditions *)
  if negb is_valid_client_id then
    ret (_make_redirect_error_response redirect_uri "unauthorized_client")
  else if negb is_valid_access then
    ret (_make_redirect_error_response redirect_uri "access_denied")
  else if negb is_valid_scope then
    ret (_make_redirect_error_response redirect_uri "invalid_scope")
  else
  (* Generate authorization code *)
  let* code := invoke CGenerateAuthorizationCode VStr (generate_authorization_code self) in
  (* Save information to be used to validate later requests *)
  let* _ := invoke (CPersistAuthorizationCode client_id code scope) (λ _, VNone)
              (persist_authorization_code self client_id code scope) in
  (* Return redirection response *)
  let params : gmap string (option string) :=
    {[ "code" := Some code;
       "response_type" := None;
       "client_id" := None;
       "redirect_uri" := None ]} ∪ (Some <$> params) in
  let redirect := build_url redirect_uri params in
  ret (_make_response EmptyString (Some {[ "Location" := redirect ]}) 302).

Definition get_token (self : AuthorizationProvider)
    (grant_type client_id client_secret redirect_uri code : string)
    (params : gmap string string) : M S Response :=
  (* Ensure proper grant_type *)
  if decide (grant_type ≠ "authorization_code") then
    ret (_make_json_error_response "unsupported_grant_type")
  else
  (* Check conditions *)
  let* is_valid_client_id :=
    invoke (CValidateClientId client_id) VBool (validate_client_id self client_id) in
  let* is_valid_client_secret :=
    invoke (CValidateClientSecret client_id client_secret) VBool
      (validate_client_secret self client_id client_secret) in
  let scope := get_scope params in
  let* is_valid_scope :=
    invoke (CValidateScope client_id scope) VBool (validate_scope self client_id scope) in
  let* is_valid_grant :=
    invoke (CValidateAuthorizationCode client_id code) VBool
      (validate_authorization_code self client_id code) in
  (* Return proper error responses on invalid conditions *)
  if negb (is_valid_client_id && is_valid_client_secret) then
    ret (_make_json_error_response "invalid_client")
  else if negb is_valid_grant then
    ret (_make_json_error_response "invalid_grant")
  else if negb is_valid_scope then
    ret (_make_json_error_response "invalid_scope")
  else
  (* Generate access tokens once all conditions have been met *)
  let* access_token := invoke CGenerateAccessToken VStr (generate_access_token self) in
  let* token_type := invoke CTokenType VStr (token_type self) in
  let* expires_in := invoke CTokenExpiresIn VInt (token_expires_in self) in
  let* refresh_token := invoke CGenerateRefreshToken VStr (generate_refresh_token self) in
  (* Save information to be used to validate later requests *)
  let* _ :=
    invoke (CPersistTokenInformation client_id code scope access_token token_type
              expires_in refresh_token) (λ _, VNone)
      (persist_token_information self client_id code scope access_token token_type
         expires_in refresh_token) in
  (* Return json response *)
  ret (_make_json_response
         (JDict {[ "access_token" := JStr access_token;
                   "token_type" := JStr token_type;
                   "expires_in" := JInt expires_in;
                   "refresh_token" := JStr refresh_token ]}) None 200).

(** The call of [get_authorization_code] with the mapping unpacked into
    keyword arguments: the three named parameters are taken from the
    mapping and the other entries become the extra keyword parameters of
    the callee; a missing one, or an entry named [self], is a [TypeError]
    raised before the body runs. *)
Definition apply_get_authorization_code (self : AuthorizationProvider)
    (kwargs : gmap string string) : M S Response :=
  if decide (is_Some (kwargs !! "self")) then
    raise (TypeError "get_authorization_code() got multiple values for keyword argument 'self'")
  else
    match kwargs !! "response_type", kwargs !! "client_id", kwargs !! "redirect_uri" with
    | Some response_type, Some client_id, Some redirect_uri =>
        get_authorization_code self response_type client_id redirect_uri
          (delete "response_type" (delete "client_id" (delete "redirect_uri" kwargs)))
    | _, _, _ =>
        raise (TypeError "get_authorization_code() takes at least 4 arguments")
    end.

(** The same for [get_token] and its five named parameters. *)
Definition apply_get_token (self : AuthorizationProvider)
    (kwargs : gmap string string) : M S Response :=
  if decide (is_Some (kwargs !! "self")) then
    raise (TypeError "get_token() got multiple values for keyword argument 'self'")
  else
    match kwargs !! "grant_type", kwargs !! "client_id", kwargs !! "client_secret",
          kwargs !! "redirect_uri", kwargs !! "code" with
    | Some grant_type, Some client_id, Some client_secret, Some redirect_uri, Some code =>
        get_token self grant_type client_id client_secret redirect_uri code
          (delete "grant_type" (delete "client_id" (delete "client_secret"
             (delete "redirect_uri" (delete "code" kwargs)))))
    | _, _, _, _, _ =>
        raise (TypeError "get_token() takes at least 6 arguments")
    end.

Definition get_authorization_code_from_url (self : AuthorizationProvider)
    (url : string) : M S Response :=
  let params := url_query_params url in
  try_except (apply_get_authorization_code self params) (λ exc,
    if isinstance_TypeError exc then Some (
      let* _ := _handle_exception exc in
      (* Catch missing parameters in request *)
      let err := "invalid_request" in
      if decide (is_Some (params !! "redirect_uri")) then
        let* u := getitem params "redirect_uri" in
        ret (_make_redirect_error_response u err)
      else
        ret _missing_redirect_uri_response)
    else if isinstance_StandardError exc then Some (
      let* _ := _handle_exception exc in
      (* Catch all other server errors *)
      let err := "server_error" in
      let* u := getitem params "redirect_uri" in
      ret (_make_redirect_error_response u err))
    else None).

Definition get_token_from_url (self : AuthorizationProvider)
    (url : string) : M S Response :=
  let params := url_query_params url in
  try_except (apply_get_token self params) (λ exc,
    if isinstance_TypeError exc then Some (
      let* _ := _handle_exception exc in
      (* Catch missing parameters in request *)
      ret (_make_json_error_response "invalid_request"))
    else if isinstance_StandardError exc then Some (
      let* _ := _handle_exception exc in
      (* Catch all other server errors *)
      ret (_make_json_error_response "server_error"))
    else None).

End Provider.

(** ** The methods of the base class *)

Section Base.
Context {S : Type}.

(** [utils.random_ascii_string], which draws on the system's entropy. *)
Variable random_ascii_string : Z → hook S string.

Definition not_implemented {A} (name : string) : hook S A := λ s,
  (Raise (NotImplementedError ("Subclasses must implement " +:+ name +:+ ".")), s).

Definition default_token_length : hook S Z := λ s, (Return 40, s).
Definition default_token_type : hook S string := λ s, (Return "Bearer", s).
Definition default_token_expires_in : hook S Z := λ s, (Return 3600, s).

(** [utils.random_ascii_string(self.token_length)] *)
Definition default_generate (token_length : hook S Z) : hook S string := λ s,
  match token_length s with
  | (Return n, s1) => random_ascii_string n s1
  | (Raise e, s1) => (Raise e, s1)
  end.

Definition base : AuthorizationProvider (S := S) := {|
  validate_client_id _ := not_implemented "validate_client_id";
  validate_client_secret _ _ := not_implemented "validate_client_secret";
  validate_scope _ _ := not_implemented "validate_scope";
  validate_access := not_implemented "validate_access";
  validate_authorization_code _ _ := not_implemented "validate_authorization_code";
  persist_authorization_code _ _ _ := not_implemented "persist_authorization_code";
  persist_token_information _ _ _ _ _ _ _ := not_implemented "persist_token_information";
  token_length := default_token_length;
  token_type := default_token_type;
  token_expires_in := default_token_expires_in;
  generate_authorization_code := default_generate default_token_length;
  generate_access_token := default_generate default_token_length;
  generate_refresh_token := default_generate default_token_length
|}.
End Base.

(** ** The URL query codec and a JSON encoder, for concrete scenarios *)

(** Modelled from the spec: the module [utils] is not under src/.  The
    provider is verified for any [build_url] and [url_query_params]; the
    functions below follow the specification of the URL query codec and
    give the concrete scenarios a codec to run with. *)
Module utils.

(** The text before the first [c], and the text after it when [c] occurs. *)
Fixpoint cut (c : ascii) (s : string) : string * option string :=
  match s with
  | EmptyString => (EmptyString, None)
  | String a r =>
      if Ascii.eqb a c then (EmptyString, Some r)
      else let '(h, t) := cut c r in (String a h, t)
  end.

Fixpoint split_on (c : ascii) (s : string) : list string :=
  match s with
  | EmptyString => [EmptyString]
  | String a r =>
      if Ascii.eqb a c then EmptyString :: split_on c r
      else match split_on c r with
           | h :: t => String a h :: t
           | [] => [String a EmptyString]
           end
  end.

Definition unhex (c : ascii) : option N :=
  let n := N_of_ascii c in
  if (48 <=? n)%N && (n <=? 57)%N then Some (n - 48)%N
  else if (65 <=? n)%N && (n <=? 70)%N then Some (n - 55)%N
  else if (97 <=? n)%N && (n <=? 102)%N then Some (n - 87)%N
  else None.

Definition hex_digit (n : N) : ascii :=
  default "0"%char (String.get (N.to_nat n) "0123456789ABCDEF").

Definition is_unreserved (c : ascii) : bool :=
  let n := N_of_ascii c in
  ((48 <=? n)%N && (n <=? 57)%N) || ((65 <=? n)%N && (n <=? 90)%N)
  || ((97 <=? n)%N && (n <=? 122)%N)
  || Ascii.eqb c "_" || Ascii.eqb c "." || Ascii.eqb c "-".

(** Percent-encoding of a query name or value, a space written [+]. *)
Fixpoint quote_plus (s : string) : string :=
  match s with
  | EmptyString => EmptyString
  | String c r =>
      if is_unreserved c then String c (quote_plus r)
      else if Ascii.eqb c " " then String "+" (quote_plus r)
      else let n := N_of_ascii c in
           String "%" (String (hex_digit (n / 16)) (String (hex_digit (n mod 16))
             (quote_plus r)))
  end.

Fixpoint unquote_plus (s : string) : string :=
  match s with
  | EmptyString => EmptyString
  | String c r =>
      if Ascii.eqb c "+" then String " " (unquote_plus r)
      else if Ascii.eqb c "%" then
        match r with
        | String a (String b r2) =>
            match unhex a, unhex b with
            | Some x, Some y => String (ascii_of_N (16 * x + y)) (unquote_plus r2)
            | _, _ => String c (unquote_plus r)
            end
        | _ => String c (unquote_plus r)
        end
      else String c (unquote_plus r)
  end.

(** The decoded name and value pairs of a query string, in order. *)
Definition parse_qsl (query : string) : list (string * string) :=
  omap (λ piece,
          if decide (piece = EmptyString) then None
          else let '(k, v) := cut "=" piece in
               Some (unquote_plus k, unquote_plus (default EmptyString v)))
       (split_on "&" query).

(** The query component of a URL: what lies between the first [?] and
    the fragment. *)
Definition query_of (url : string) : string :=
  default EmptyString (cut "?" (cut "#" url).1).2.

(** Modelled from the spec: [utils.url_query_params] is not under src/.
    It extracts the query component of a URL and decodes it into a
    mapping from parameter name to parameter value; of duplicate keys the
    last occurrence wins; an absent query string yields the empty
    mapping. *)
Definition url_query_params (url : string) : gmap string string :=
  foldl (λ m kv, <[kv.1 := kv.2]> m) ∅ (parse_qsl (query_of url)).

Definition urlencode (query : list (string * string)) : string :=
  String.concat "&" (map (λ kv, quote_plus kv.1 +:+ "=" +:+ quote_plus kv.2) query).

(** Modelled from the spec: [utils.build_url] is not under src/.  It
    merges the query parameters [base] already has with [params]; a
    parameter of [params] whose value is absent is removed rather than
    included; the other values are percent-encoded; the order of the
    parameters is a function of the merged mapping. *)
Definition build_url (base : string) (params : gmap string (option string)) : string :=
  let '(front, fragment) := cut "#" base in
  let '(path, query) := cut "?" front in
  let existing : gmap string string :=
    foldl (λ m kv, <[kv.1 := kv.2]> m) ∅ (parse_qsl (default EmptyString query)) in
  let merged : gmap string string := omap id (params ∪ (Some <$> existing)) in
  let query := urlencode (map_to_list merged) in
  path
  +:+ (if decide (query = EmptyString) then EmptyString else String "?" query)
  +:+ (match fragment with Some f => String "#" f | None => EmptyString end).

End utils.

(** [json.dumps] belongs to Python's library, not to the repository; the
    provider is verified for any encoder, and the scenarios run with this
    one. *)
Module JSON.

(** A string literal: the quotation mark and the backslash are escaped. *)
Fixpoint escape (s : string) : string :=
  match s with
  | EmptyString => EmptyString
  | String c r =>
      if Ascii.eqb c "034" || Ascii.eqb c "\" then String "\" (String c (escape r))
      else String c (escape r)
  end.

Definition quoted (s : string) : string :=
  String "034" (escape s +:+ String "034" EmptyString).

(** The encoding, with the separators of [json.dumps]; the fields of an
    object come in the order the mapping enumerates them. *)
Fixpoint dumps (j : json) : string :=
  match j with
  | JNull => "null"
  | JBool b => if b then "true" else "false"
  | JInt z => pretty z
  | JStr s => quoted s
  | JList l => "[" +:+ String.concat ", " (map dumps l) +:+ "]"
  | JDict d =>
      "{" +:+ String.concat ", "
                (map_fold (λ k v acc, (quoted k +:+ ": " +:+ dumps v) :: acc) [] d)
      +:+ "}"
  end.

End JSON.


(** ** How CPython 2 lays out a dict of a few strings

    For the concrete scenarios: the hash of a string and the open
    addressing of a dict that has not grown beyond its first eight slots
    (at most five entries, none deleted), whose enumeration is the order
    of its slots. *)

Module cpython2.

Definition word (x : Z) : Z := x mod 2 ^ 64.

(** [string_hash], without hash randomization. *)
Definition string_hash (s : string) : Z :=
  match s with
  | EmptyString => 0
  | String c _ =>
      let x :=
        foldl (λ x c, Z.lxor (word (1000003 * x)) (Z.of_N (N_of_ascii c)))
          (word (Z.shiftl (Z.of_N (N_of_ascii c)) 7)) (String.list_ascii_of_string s) in
      let x := Z.lxor x (Z.of_nat (String.length s)) in
      if decide (x = 2 ^ 64 - 1) then 2 ^ 64 - 2 else x
  end.

(** [lookdict]: the slot of [key], found from slot [i] on with the
    perturbation [perturb]. *)
Fixpoint lookdict (fuel : nat) (table : list (option (string * string))) (key : string)
    (i perturb : Z) : option nat :=
  match fuel with
  | O => None
  | Datatypes.S fuel =>
      let slot := Z.to_nat (Z.land i 7) in
      match table !! slot with
      | Some None => Some slot
      | Some (Some (k, _)) =>
          if decide (k = key) then Some slot
          else lookdict fuel table key (word (Z.shiftl i 2 + i + perturb + 1))
                 (Z.shiftr perturb 5)
      | None => None
      end
  end.

(** [d[key] = value] *)
Definition setitem (table : list (option (string * string))) (kv : string * string)
    : list (option (string * string)) :=
  let hash := string_hash kv.1 in
  match lookdict 64 table kv.1 (Z.land hash 7) hash with
  | Some slot => <[slot := Some kv]> table
  | None => table
  end.

Definition fixed_names : list string := ["Content-Type"; "Cache-Control"; "Pragma"].

(** The order in which the items of a dict of headers were set, as
    [_make_json_response] builds it: the headers of the caller (as they
    are listed here, which is as CPython has them when there is one), then
    the three fixed ones; a dict with a single item has no other order. *)
Definition history (d : gmap string string) : list (string * string) :=
  filter (λ kv, kv.1 ∉ fixed_names) (map_to_list d)
  ++ omap (λ name, (λ value, (name, value)) <$> d !! name) fixed_names.

(** The items in the order of the slots; a dict this layout does not
    describe is enumerated in some other order. *)
Definition enumerate (d : gmap string string) : list (string * string) :=
  let slots := omap id (foldl setitem (replicate 8 None) (history d)) in
  if decide ((size d ≤ 5)%nat ∧ slots ≡ₚ map_to_list d) then slots else map_to_list d.

Definition enumerate_perm (d : gmap string string) : enumerate d ≡ₚ map_to_list d.
Proof. unfold enumerate. case_decide as Hslots; [apply Hslots|done]. Qed.

Definition order : DictOrder :=
  {| dict_items := enumerate; dict_items_perm := enumerate_perm |}.

End cpython2.

(** ** A host that keeps everything in memory *)

Module Memory.

#[local] Existing Instance cpython2.order.

Record store := mkStore {
  session : bool;                             (* the end user is signed in and consents *)
  codes : list (string * string * string);    (* client_id, code, scope *)
  grants : list (string * string * string);   (* client_id, access_token, refresh_token *)
  issued : nat                                (* secrets generated so far *)
}.

Definition empty (session : bool) : store :=
  {| session := session; codes := []; grants := []; issued := 0 |}.

Definition fresh (prefix : string) : hook store string := λ s,
  (Return (prefix +:+ pretty (issued s)),
   {| session := session s; codes := codes s; grants := grants s;
      issued := Datatypes.S (issued s) |}).

(** A provider for the registered [clients] (identifier to secret) and
    the [scopes] it grants. *)
Definition provider (clients : gmap string string) (scopes : list string)
    : AuthorizationProvider (S := store) := {|
  validate_client_id cid := λ s, (Return (bool_decide (is_Some (clients !! cid))), s);
  validate_client_secret cid secret := λ s,
    (Return (bool_decide (clients !! cid = Some secret)), s);
  validate_scope _ scope := λ s, (Return (bool_decide (scope ∈ scopes)), s);
  validate_access := λ s, (Return (session s), s);
  validate_authorization_code cid code := λ s,
    (Return (bool_decide (Exists (λ c, c.1 = (cid, code)) (codes s))), s);
  persist_authorization_code cid code scope := λ s,
    (Return (),
     {| session := session s; codes := (cid, code, scope) :: codes s;
        grants := grants s; issued := issued s |});
  persist_token_information cid code _ access_token _ _ refresh_token := λ s,
    (Return (),
     {| session := session s; codes := codes s;
        grants := (cid, access_token, refresh_token) :: grants s;
        issued := issued s |});
  token_length := default_token_length;
  token_type := default_token_type;
  token_expires_in := default_token_expires_in;
  generate_authorization_code := fresh "code";
  generate_access_token := fresh "access";
  generate_refresh_token := fresh "refresh"
|}.

(** The same provider with a scope check that raises [e]. *)
Definition failing_scope (e : exn) (p : AuthorizationProvider (S := store))
    : AuthorizationProvider (S := store) := {|
  validate_client_id := validate_client_id p;
  validate_client_secret := validate_client_secret p;
  validate_scope _ _ := λ s, (Raise e, s);
  validate_access := validate_access p;
  validate_authorization_code := validate_authorization_code p;
  persist_authorization_code := persist_authorization_code p;
  persist_token_information := persist_token_information p;
  token_length := token_length p;
  token_type := token_type p;
  token_expires_in := token_expires_in p;
  generate_authorization_code := generate_authorization_code p;
  generate_access_token := generate_access_token p;
  generate_refresh_token := generate_refresh_token p
|}.

Definition clients : gmap string string := {[ "client1" := "secret1" ]}.
Definition scopes : list string := [EmptyString; "read"].
Definition demo : AuthorizationProvider (S := store) := provider clients scopes.

Definition authorize_url : string :=
  "https://as.example/authorize?response_type=code&client_id=client1&redirect_uri=https%3A%2F%2Fapp%2Fcb&scope=read&state=xyz".

Definition token_url : string :=
  "https://as.example/token?grant_type=authorization_code&client_id=client1&client_secret=secret1&redirect_uri=https%3A%2F%2Fapp%2Fcb&code=code0&scope=read".

(** The extra keyword parameters of the authorize request above, and the
    store once that request has been granted. *)
Definition extra : gmap string string := {[ "scope" := "read"; "state" := "xyz" ]}.

Definition authorized : store :=
  {| session := true; codes := [("client1", "code0", "read")]; grants := []; issued := 1 |}.

Definition no_client_url : string :=
  "https://as.example/authorize?response_type=code&redirect_uri=https%3A%2F%2Fapp%2Fcb".

Definition no_code_url : string :=
  "https://as.example/token?grant_type=authorization_code&client_id=client1&client_secret=secret1&redirect_uri=https%3A%2F%2Fapp%2Fcb".

(** The two entry points of a provider [p] over this store, with the codec
    and the encoder above. *)
Definition authorize_from_url (p : AuthorizationProvider (S := store)) : string → M store Response :=
  get_authorization_code_from_url utils.build_url utils.url_query_params JSON.dumps p.

Definition token_from_url (p : AuthorizationProvider (S := store)) : string → M store Response :=
  get_token_from_url utils.url_query_params JSON.dumps p.

End Memory.

(** ** Predicates on runs *)

Section Runs.
Context {S A : Type}.

(** A fault of a hook inside [m] ends [m] with that exception. *)
Definition propagates (m : M S A) : Prop :=
  ∀ s e, faulted e (trace (m s)) → result (m s) = Raise e.

(** Every event of [m] satisfies [P]. *)
Definition emits (P : event → Prop) (m : M S A) : Prop :=
  ∀ s, Forall P (trace (m s)).
End Runs.

(** A validation hook returned false. *)
Definition check_failed (t : list event) : Prop :=
  ∃ c, is_validation c = true ∧ Invoked c (Return (VBool false)) ∈ t.

(** The invocations of validation hooks all come before every other
    event of the trace. *)
Fixpoint checks_first (t : list event) : bool :=
  match t with
  | [] => true
  | ev :: t' =>
      if invokes is_validation ev then checks_first t'
      else forallb (λ ev', negb (invokes is_validation ev')) t'
  end.

(** No persistence and no generation among the events. *)
Definition no_effect (t : list event) : Prop :=
  Forall (λ ev, invokes is_persist ev = false ∧ invokes is_generator ev = false) t.

(** One of the [required] names has no entry in [params]. *)
Definition lacks (required : list string) (params : gmap string string) : Prop :=
  ∃ k, k ∈ required ∧ params !! k = None.

(** The hooks of the token phase, and those of the authorize phase, that
    the other phase has no use for. *)
Definition token_only (c : call) : bool :=
  match c with
  | CValidateClientSecret _ _ | CValidateAuthorizationCode _ _
  | CPersistTokenInformation _ _ _ _ _ _ _ => true
  | _ => false
  end.

Definition authorize_only (c : call) : bool :=
  match c with
  | CValidateAccess | CPersistAuthorizationCode _ _ _ => true
  | _ => false
  end.

(** ** Further requests for the in-memory host *)

Module Scenario.

(** The authorize request with a parameter called [self] added. *)
Definition self_url : string :=
  "https://as.example/authorize?response_type=code&client_id=client1&redirect_uri=https%3A%2F%2Fapp%2Fcb&self=me".

(** The scope of [Memory.extra] without its other parameter. *)
Definition scope_only : gmap string string := {[ "scope" := "read" ]}.

(** What the granted authorize request of [Memory] is answered with. *)
Definition granted : Response :=
  {| status_code := 302;
     headers := {[ "Location" := "https://app/cb?scope=read&state=xyz&code=code0" ]};
     raw := EmptyString |}.

(** A source of random strings for a host without state. *)
Definition no_entropy : Z → hook () string := λ _ s, (Return EmptyString, s).

End Scenario.

(** ** Further predicates on runs *)

(** The method a hook invocation stands for. *)
Definition hook_name (c : call) : string :=
  match c with
  | CValidateClientId _ => "validate_client_id"
  | CValidateClientSecret _ _ => "validate_client_secret"
  | CValidateScope _ _ => "validate_scope"
  | CValidateAccess => "validate_access"
  | CValidateAuthorizationCode _ _ => "validate_authorization_code"
  | CPersistAuthorizationCode _ _ _ => "persist_authorization_code"
  | CPersistTokenInformation _ _ _ _ _ _ _ => "persist_token_information"
  | CTokenType => "token_type"
  | CTokenExpiresIn => "token_expires_in"
  | CGenerateAuthorizationCode => "generate_authorization_code"
  | CGenerateAccessToken => "generate_access_token"
  | CGenerateRefreshToken => "generate_refresh_token"
  end.

(** The methods invoked along a trace, in order. *)
Definition invoked_hooks (t : list event) : list string :=
  omap (λ ev, match ev with Invoked c _ => Some (hook_name c) | Logged _ => None end) t.

Definition is_logged (ev : event) : bool :=
  match ev with Logged _ => true | Invoked _ _ => false end.

(** The headers of every JSON response that is given none by its caller. *)
Definition json_headers : gmap string string :=
  {[ "Content-Type" := "application/json;charset=UTF-8";
     "Cache-Control" := "no-store";
     "Pragma" := "no-cache" ]}.

Section MoreRuns.
Context {S A : Type}.

(** An exception that ends [m] was raised by the hook [m] invoked last. *)
Definition raises_last (m : M S A) : Prop :=
  ∀ s e, result (m s) = Raise e → ∃ c t, trace (m s) = t ++ [Invoked c (Raise e)].

(** What [m] returns satisfies [Q]. *)
Definition returns (Q : A → Prop) (m : M S A) : Prop :=
  ∀ s a, result (m s) = Return a → Q a.
End MoreRuns.

(** The validation hooks of [self] leave the host's state as it is. *)
Definition pure_validation {S} (self : AuthorizationProvider (S := S)) : Prop :=
  (∀ client_id s, (validate_client_id self client_id s).2 = s)
  ∧ (∀ client_id client_secret s,
       (validate_client_secret self client_id client_secret s).2 = s)
  ∧ (∀ client_id scope s, (validate_scope self client_id scope s).2 = s)
  ∧ (∀ s, (validate_access self s).2 = s)
  ∧ (∀ client_id code s, (validate_authorization_code self client_id code s).2 = s).

(** The parameters [get_authorization_code] and [get_token] name; the
    other entries of a mapping unpacked into a call are the callee's extra
    keyword parameters. *)
Definition authorize_extras (kwargs : gmap string string) : gmap string string :=
  delete "response_type" (delete "client_id" (delete "redirect_uri" kwargs)).

Definition token_extras (kwargs : gmap string string) : gmap string string :=
  delete "grant_type" (delete "client_id" (delete "client_secret"
    (delete "redirect_uri" (delete "code" kwargs)))).

(** * Properties *)

(** ** Runs of the monad *)

Section Laws.
Context {S : Type}.
Implicit Types (s : S) (t : list event) (e : exn).

Lemma after_nil {A} (r : outcome A * S * list event) : after [] r = r.
Proof. by destruct r as [[o s] t]. Qed.

Lemma after_after {A} t1 t2 (r : outcome A * S * list event) :
  after t1 (after t2 r) = after (t1 ++ t2) r.
Proof. unfold after, result, final, trace; simpl. by rewrite (assoc_L (++)). Qed.

Lemma after_run {A} t (o : outcome A) s t' : after t (o, s, t') = (o, s, t ++ t').
Proof. done. Qed.

Lemma after_ret {A} t (a : A) s : after t (ret a s) = (Return a, s, t).
Proof. unfold after, ret, result, final, trace; simpl. by rewrite (right_id_L [] (++)). Qed.

Lemma after_one {A} ev (o : outcome A) s t : after [ev] (o, s, t) = (o, s, ev :: t).
Proof. done. Qed.

Lemma trace_run {A} (o : outcome A) s t : trace (o, s, t) = t.
Proof. done. Qed.

Lemma result_run {A} (o : outcome A) s t : result (o, s, t) = o.
Proof. done. Qed.

Lemma result_after {A} t (r : outcome A * S * list event) : result (after t r) = result r.
Proof. done. Qed.

Lemma final_after {A} t (r : outcome A * S * list event) : final (after t r) = final r.
Proof. done. Qed.

Lemma trace_after {A} t (r : outcome A * S * list event) : trace (after t r) = t ++ trace r.
Proof. done. Qed.

Lemma bind_invoke_Return {A B} c inj (h : hook S A) (k : A → M S B) s a s1 :
  h s = (Return a, s1) →
  bind (invoke c inj h) k s = after [Invoked c (Return (inj a))] (k a s1).
Proof. intros Hh. unfold bind, invoke. by rewrite Hh. Qed.

Lemma bind_invoke_Raise {A B} c inj (h : hook S A) (k : A → M S B) s e s1 :
  h s = (Raise e, s1) →
  bind (invoke c inj h) k s = (Raise e, s1, [Invoked c (Raise e)]).
Proof. intros Hh. unfold bind, invoke. by rewrite Hh. Qed.

(** A hook either returns, and the method goes on, or raises, and the
    method ends there. *)
Lemma bind_invoke_cases {A B} c inj (h : hook S A) (k : A → M S B) s :
  (∃ a s1, h s = (Return a, s1)
           ∧ bind (invoke c inj h) k s = after [Invoked c (Return (inj a))] (k a s1))
  ∨ (∃ e s1, h s = (Raise e, s1)
             ∧ bind (invoke c inj h) k s = (Raise e, s1, [Invoked c (Raise e)])).
Proof.
  destruct (h s) as [[a|e] s1] eqn:Hh; [left|right]; do 2 eexists; split; try done.
  - by apply bind_invoke_Return.
  - by apply bind_invoke_Raise.
Qed.

Lemma faulted_app e t1 t2 : faulted e (t1 ++ t2) ↔ faulted e t1 ∨ faulted e t2.
Proof.
  unfold faulted. split.
  - intros [c [H|H]%elem_of_app]; eauto.
  - intros [[c H]|[c H]]; exists c; apply elem_of_app; eauto.
Qed.

Lemma faulted_nil e : ¬ faulted e [].
Proof. intros [c H]. by apply elem_of_nil in H. Qed.

Lemma propagates_ret {A} (a : A) : propagates (ret (S := S) a).
Proof. intros s e H. by apply faulted_nil in H. Qed.

Lemma propagates_raise {A} e0 : propagates (raise (S := S) (A := A) e0).
Proof. intros s e H. by apply faulted_nil in H. Qed.

Lemma propagates_invoke {A} c inj (h : hook S A) : propagates (invoke c inj h).
Proof.
  intros s e [c' H]. unfold invoke in *. destruct (h s) as [[a|e'] s1]; simpl in *.
  - apply list_elem_of_singleton in H. discriminate.
  - apply list_elem_of_singleton in H. by injection H as -> ->.
Qed.

Lemma propagates_bind {A B} (m : M S A) (k : A → M S B) :
  propagates m → (∀ a, propagates (k a)) → propagates (bind m k).
Proof.
  intros Hm Hk s e He. specialize (Hm s e). unfold bind in *.
  destruct (m s) as [[[a|e'] s1] t1].
  - rewrite trace_after in He. apply faulted_app in He as [He|He].
    + by specialize (Hm He).
    + rewrite result_after. by apply Hk.
  - specialize (Hm He). by injection Hm as ->.
Qed.

Lemma emits_ret {A} P (a : A) : emits P (ret (S := S) a).
Proof. intros s. constructor. Qed.

Lemma emits_raise {A} P e : emits P (raise (S := S) (A := A) e).
Proof. intros s. constructor. Qed.

Lemma emits_invoke {A} (P : event → Prop) c inj (h : hook S A) :
  (∀ r, P (Invoked c r)) → emits P (invoke c inj h).
Proof. intros HP s. unfold invoke. destruct (h s) as [r s1]. by repeat constructor. Qed.

Lemma emits_bind {A B} P (m : M S A) (k : A → M S B) :
  emits P m → (∀ a, emits P (k a)) → emits P (bind m k).
Proof.
  intros Hm Hk s. specialize (Hm s). unfold bind.
  destruct (m s) as [[[a|e] s1] t1]; [|done].
  rewrite trace_after. apply Forall_app. split; [done | apply Hk].
Qed.
End Laws.

(** [check_failed], computed. *)
Lemma check_failed_existsb (t : list event) :
  check_failed t →
  existsb (λ ev, match ev with
                 | Invoked c (Return (VBool false)) => is_validation c
                 | _ => false
                 end) t = true.
Proof.
  intros (c & Hc & Hin). apply existsb_exists. exists (Invoked c (Return (VBool false))).
  split; [by apply list_elem_of_In|done].
Qed.

Create HintDb runs.
#[local] Hint Resolve propagates_ret propagates_raise propagates_invoke : runs.
#[local] Hint Resolve emits_ret emits_raise : runs.

(** Splits a goal about a method into one goal per straight-line path. *)
Ltac paths :=
  repeat first
    [ apply propagates_bind; [solve [auto with runs] | intros ?]
    | apply emits_bind; [apply emits_invoke; by intros | intros ?]
    | case_decide
    | match goal with |- context [if negb ?b then _ else _] => destruct b; simpl end ];
  auto with runs.

(** Runs the next hook of the method in the goal, in both of its outcomes. *)
Ltac run_hook :=
  match goal with
  | |- context [bind (invoke ?c ?inj ?h) ?k ?s] =>
      let Hh := fresh "Hhook" in
      destruct (bind_invoke_cases c inj h k s) as [(? & ? & Hh & ->)|(? & ? & Hh & ->)];
      cbv beta
  end.

(** Closes the goal for a path that has been run to its end: the trace is
    a list of known events. *)
(** Takes both sides of the next test on what a validation hook returned. *)
Ltac branch :=
  match goal with
  | |- context [negb (?b1 && ?b2)] =>
      is_var b1; is_var b2; destruct b1, b2; cbn [negb andb]
  | |- context [negb ?b] => is_var b; destruct b; cbn [negb]
  end.

Ltac failing_path :=
  rewrite ?after_ret, ?after_one, ?trace_run, ?result_run;
  split; [reflexivity|];
  intros [Hne|(c & Hc & Hin)];
  [ by destruct Hne
  | first
      [ let Hx := fresh in
        pose proof (check_failed_existsb _ (ex_intro _ c (conj Hc Hin))) as Hx;
        cbn in Hx; discriminate Hx
      | split;
        [ unfold no_effect; repeat constructor
        | intros resp [= <-]; eexists; split; [|reflexivity];
          apply list_elem_of_In; cbn; tauto ]
      | split; [unfold no_effect; repeat constructor | intros resp [=]] ] ].

(** ** The header mapping *)

Section Headers.
Context {order : DictOrder}.
Implicit Types (h d : gmap string string).

Lemma ci_setitem_fresh key value h :
  (∀ k, is_Some (h !! k) → lower k ≠ lower key) →
  ci_setitem key value h = <[key := value]> h.
Proof.
  intros Hfresh. unfold ci_setitem. f_equal. apply map_filter_id.
  intros k v Hk. apply Hfresh. by exists v.
Qed.

(** Setting items none of whose names differ in case only is inserting
    them. *)
Lemma ci_setitems_distinct (l : list (string * string)) h :
  NoDup (lower <$> l.*1) →
  (∀ k, is_Some (h !! k) → lower k ∉ lower <$> l.*1) →
  foldl (λ h kv, ci_setitem kv.1 kv.2 h) h l = list_to_map (reverse l) ∪ h.
Proof.
  revert h. induction l as [|[k v] l IH]; intros h Hnodup Hfresh.
  - rewrite reverse_nil. cbn [foldl list_to_map foldr]. by rewrite (left_id_L ∅ (∪)).
  - cbn [foldl fst snd]. rewrite fmap_cons, fmap_cons in Hnodup.
    apply NoDup_cons in Hnodup as [Hk Hnodup].
    rewrite ci_setitem_fresh.
    2:{ intros k' Hk' Heq. apply (Hfresh k' Hk'). rewrite Heq. left. }
    rewrite IH; [|done|].
    + rewrite reverse_cons, list_to_map_app. cbn [list_to_map foldr fst snd].
      rewrite <-(assoc_L (∪)). f_equal.
      by rewrite insert_empty, <-insert_union_singleton_l.
    + intros k' [Hk'|[? Hk']]%lookup_insert_is_Some.
      * by subst k'.
      * intros Hin. apply (Hfresh k' Hk'). by right.
Qed.

(** A dict none of whose names differ in case only is merged into fresh
    headers as it is, whatever the order of its enumeration. *)
Lemma ci_update_distinct d : case_distinct d → ci_update d ∅ = d.
Proof.
  intros Hd. unfold ci_update, case_distinct in *.
  rewrite ci_setitems_distinct.
  - rewrite (right_id_L ∅ (∪)). rewrite <-(list_to_map_to_list d) at 2.
    apply list_to_map_proper.
    + rewrite reverse_Permutation, dict_items_perm. apply NoDup_fst_map_to_list.
    + by rewrite reverse_Permutation, dict_items_perm.
  - by rewrite dict_items_perm.
  - intros k [v Hk]. by rewrite lookup_empty in Hk.
Qed.

Lemma case_distinct_singleton key value : case_distinct {[ key := value ]}.
Proof.
  unfold case_distinct. rewrite map_to_list_singleton. cbn. apply NoDup_singleton.
Qed.

Lemma case_distinct_json_headers : case_distinct json_headers.
Proof.
  unfold case_distinct, json_headers.
  rewrite !map_to_list_insert, map_to_list_singleton.
  - cbn. apply (bool_decide_unpack _). by vm_compute.
  - by rewrite lookup_singleton_ne.
  - by rewrite lookup_insert_ne, lookup_singleton_ne.
Qed.

(** The headers of a response given a single header. *)
Lemma response_header_single body name value status :
  headers (_make_response body (Some {[ name := value ]}) status) = {[ name := value ]}.
Proof.
  unfold _make_response. cbn [headers].
  apply ci_update_distinct, case_distinct_singleton.
Qed.
End Headers.

(** ** The response builder *)

Section Redirects.
Context {order : DictOrder}.
Variable build_url : string → gmap string (option string) → string.

Lemma redirect_error_response_shape redirect_uri err :
  let r := _make_redirect_error_response build_url redirect_uri err in
  status_code r = 302 ∧ raw r = EmptyString
  ∧ ∃ m, headers r = {[ "Location" := build_url redirect_uri m ]}
         ∧ m !! "error" = Some (Some err)
         ∧ ∀ k, k ≠ "error" → default None (m !! k) = None.
Proof.
  cbv zeta. unfold _make_redirect_error_response.
  split; [reflexivity|]. split; [reflexivity|].
  eexists. split; [apply response_header_single|]. split; [done|].
  intros k Hk. rewrite lookup_insert_ne by done.
  repeat (rewrite lookup_insert; case_decide; [done|]).
  rewrite lookup_singleton. by case_decide.
Qed.
End Redirects.

Section Responses.
Context {order : DictOrder}.
Variable json_dumps : json → string.

(** When no two names among the headers of the caller and the three fixed
    ones differ in case only, the response carries the headers of the
    caller with [Content-Type], [Cache-Control] and [Pragma] set to their
    fixed values, in place of what the caller gave under these names. *)
Lemma json_response_headers_distinct data (given : option (gmap string string)) status :
  let sent : gmap string string :=
    <["Pragma" := "no-cache"]>
      (<["Cache-Control" := "no-store"]>
         (<["Content-Type" := "application/json;charset=UTF-8"]> (default ∅ given))) in
  case_distinct sent →
  let r := _make_json_response json_dumps data given status in
  status_code r = status ∧ raw r = json_dumps data ∧ headers r = sent.
Proof.
  intros sent Hsent r. subst r sent.
  split; [reflexivity|]. split; [reflexivity|].
  unfold _make_json_response, _make_response. cbn [headers].
  destruct given as [h|]; cbn [default] in *.
  - rewrite (right_id_L ∅ (∪)). by apply ci_update_distinct.
  - by apply ci_update_distinct.
Qed.

End Responses.

(** ** The two operations *)

Section Operations.
Context {S : Type} {order : DictOrder}.
Variable build_url : string → gmap string (option string) → string.
Variable json_dumps : json → string.
Variable self : AuthorizationProvider (S := S).
Implicit Types (s : S) (params : gmap string string).

Local Abbreviation redirect_error := (_make_redirect_error_response build_url).
Local Abbreviation json_error := (_make_json_error_response json_dumps).

(** C1: when [response_type] is not ["code"], [get_authorization_code]
    answers with the redirect error response for
    [unsupported_response_type] and invokes no hook (the host's state is
    untouched and the trace is empty).  Otherwise, the three checks
    returning [b1], [b2] and [b3], all three are invoked, in the order
    client id, access, scope and whatever the earlier ones returned, and
    the first that returned false decides the answer: the redirect error
    response for [unauthorized_client], [access_denied] or
    [invalid_scope]; nothing else is invoked then. *)
Theorem get_authorization_code_checks response_type client_id redirect_uri params s :
  let r := get_authorization_code build_url self response_type client_id redirect_uri params s in
  (response_type ≠ "code" →
     r = (Return (redirect_error redirect_uri "unsupported_response_type"), s, []))
  ∧ (response_type = "code" → ∀ b1 s1 b2 s2 b3 s3,
       validate_client_id self client_id s = (Return b1, s1) →
       validate_access self s1 = (Return b2, s2) →
       validate_scope self client_id (get_scope params) s2 = (Return b3, s3) →
       let checks :=
         [Invoked (CValidateClientId client_id) (Return (VBool b1));
          Invoked CValidateAccess (Return (VBool b2));
          Invoked (CValidateScope client_id (get_scope params)) (Return (VBool b3))] in
       checks `prefix_of` trace r
       ∧ (b1 = false →
            r = (Return (redirect_error redirect_uri "unauthorized_client"), s3, checks))
       ∧ (b1 = true → b2 = false →
            r = (Return (redirect_error redirect_uri "access_denied"), s3, checks))
       ∧ (b1 = true → b2 = true → b3 = false →
            r = (Return (redirect_error redirect_uri "invalid_scope"), s3, checks))).
Proof.
  intros r. subst r. unfold get_authorization_code. split.
  - intros Hrt. by rewrite decide_True.
  - intros -> b1 s1 b2 s2 b3 s3 H1 H2 H3. rewrite decide_False by (intros H; by apply H).
    rewrite (bind_invoke_Return _ _ _ _ _ _ _ H1), (bind_invoke_Return _ _ _ _ _ _ _ H2),
      (bind_invoke_Return _ _ _ _ _ _ _ H3), !after_after.
    split; [eexists; by rewrite trace_after|].
    split; [|split]; intros; subst; done.
Qed.

(** C2: when [grant_type] is not ["authorization_code"], [get_token]
    answers with the JSON error response for [unsupported_grant_type] and
    invokes no hook.  Otherwise, the four checks returning [b1] (client
    id), [b2] (client secret), [b3] (scope) and [b4] (authorization
    code), all four are invoked whatever the earlier ones returned, and
    the answer is the JSON error response for [invalid_client] when the
    client id or the secret is invalid, else for [invalid_grant] when the
    code is invalid, else for [invalid_scope] when the scope is
    invalid. *)
Theorem get_token_checks grant_type client_id client_secret redirect_uri code params s :
  let r := get_token json_dumps self grant_type client_id client_secret redirect_uri code
             params s in
  (grant_type ≠ "authorization_code" →
     r = (Return (json_error "unsupported_grant_type"), s, []))
  ∧ (grant_type = "authorization_code" → ∀ b1 s1 b2 s2 b3 s3 b4 s4,
       validate_client_id self client_id s = (Return b1, s1) →
       validate_client_secret self client_id client_secret s1 = (Return b2, s2) →
       validate_scope self client_id (get_scope params) s2 = (Return b3, s3) →
       validate_authorization_code self client_id code s3 = (Return b4, s4) →
       let checks :=
         [Invoked (CValidateClientId client_id) (Return (VBool b1));
          Invoked (CValidateClientSecret client_id client_secret) (Return (VBool b2));
          Invoked (CValidateScope client_id (get_scope params)) (Return (VBool b3));
          Invoked (CValidateAuthorizationCode client_id code) (Return (VBool b4))] in
       checks `prefix_of` trace r
       ∧ (b1 = false ∨ b2 = false →
            r = (Return (json_error "invalid_client"), s4, checks))
       ∧ (b1 = true → b2 = true → b4 = false →
            r = (Return (json_error "invalid_grant"), s4, checks))
       ∧ (b1 = true → b2 = true → b4 = true → b3 = false →
            r = (Return (json_error "invalid_scope"), s4, checks))).
Proof.
  intros r. subst r. unfold get_token. split.
  - intros Hgt. by rewrite decide_True.
  - intros -> b1 s1 b2 s2 b3 s3 b4 s4 H1 H2 H3 H4.
    rewrite decide_False by (intros H; by apply H).
    rewrite (bind_invoke_Return _ _ _ _ _ _ _ H1), (bind_invoke_Return _ _ _ _ _ _ _ H2),
      (bind_invoke_Return _ _ _ _ _ _ _ H3), (bind_invoke_Return _ _ _ _ _ _ _ H4),
      !after_after.
    split; [eexists; by rewrite trace_after|].
    split; [|split].
    + intros [-> | ->]; [done | by destruct b1].
    + by intros -> -> ->.
    + by intros -> -> -> ->.
Qed.

(** C3: when [response_type] is ["code"] and the three checks return
    true, [get_authorization_code] takes a code from
    [generate_authorization_code], hands it to
    [persist_authorization_code] with the client id and the scope,
    exactly once, and answers with status 302, an empty body, and as only
    header a [Location] that is [build_url redirect_uri m], where [m] is
    the extra keyword parameters of the caller (the scope among them,
    when it was given) with the code added and with [response_type],
    [client_id] and [redirect_uri] marked absent. *)
Theorem get_authorization_code_success client_id redirect_uri params s s1 s2 s3 code s4 s5 :
  validate_client_id self client_id s = (Return true, s1) →
  validate_access self s1 = (Return true, s2) →
  validate_scope self client_id (get_scope params) s2 = (Return true, s3) →
  generate_authorization_code self s3 = (Return code, s4) →
  persist_authorization_code self client_id code (get_scope params) s4 = (Return (), s5) →
  let r := get_authorization_code build_url self "code" client_id redirect_uri params s in
  ∃ resp (m : gmap string (option string)),
    r = (Return resp, s5,
         [Invoked (CValidateClientId client_id) (Return (VBool true));
          Invoked CValidateAccess (Return (VBool true));
          Invoked (CValidateScope client_id (get_scope params)) (Return (VBool true));
          Invoked CGenerateAuthorizationCode (Return (VStr code));
          Invoked (CPersistAuthorizationCode client_id code (get_scope params))
            (Return VNone)])
    ∧ length (filter (λ ev, is_persist_authorization_code ev = true) (trace r)) = 1%nat
    ∧ status_code resp = 302
    ∧ headers resp = {[ "Location" := build_url redirect_uri m ]}
    ∧ raw resp = EmptyString
    ∧ m !! "code" = Some (Some code)
    ∧ m !! "response_type" = Some None
    ∧ m !! "client_id" = Some None
    ∧ m !! "redirect_uri" = Some None
    ∧ ∀ k, k ∉ ["code"; "response_type"; "client_id"; "redirect_uri"] →
        m !! k = Some <$> params !! k.
Proof.
  intros H1 H2 H3 H4 H5 r. subst r. unfold get_authorization_code.
  rewrite decide_False by (intros H; by apply H).
  rewrite (bind_invoke_Return _ _ _ _ _ _ _ H1), (bind_invoke_Return _ _ _ _ _ _ _ H2),
    (bind_invoke_Return _ _ _ _ _ _ _ H3). cbn [negb].
  rewrite (bind_invoke_Return _ _ _ _ _ _ _ H4), (bind_invoke_Return _ _ _ _ _ _ _ H5),
    !after_after.
  eexists _, _. split; [reflexivity|].
  split; [reflexivity|]. split; [reflexivity|].
  split; [apply response_header_single|]. split; [reflexivity|].
  split; [by apply lookup_union_Some_l|].
  do 3 (split; [by apply lookup_union_Some_l|]).
  intros k Hk. rewrite lookup_union_r, lookup_fmap; [done|].
  repeat (rewrite lookup_insert_ne by (intros <-; apply Hk; set_solver)).
  apply lookup_singleton_ne. intros <-; apply Hk; set_solver.
Qed.

(** C4: when [grant_type] is ["authorization_code"] and the four checks
    return true, [get_token] generates an access token, reads the token
    type and the lifetime, generates a refresh token, hands all four to
    [persist_token_information] with the client id, the code and the
    scope, exactly once, and answers with the JSON response of status 200
    whose body encodes the object with exactly the fields
    [access_token], [token_type], [expires_in] and [refresh_token],
    holding those values. *)
Theorem get_token_success client_id client_secret redirect_uri code params
    s s1 s2 s3 s4 access_token s5 type s6 expires_in s7 refresh_token s8 s9 :
  validate_client_id self client_id s = (Return true, s1) →
  validate_client_secret self client_id client_secret s1 = (Return true, s2) →
  validate_scope self client_id (get_scope params) s2 = (Return true, s3) →
  validate_authorization_code self client_id code s3 = (Return true, s4) →
  generate_access_token self s4 = (Return access_token, s5) →
  token_type self s5 = (Return type, s6) →
  token_expires_in self s6 = (Return expires_in, s7) →
  generate_refresh_token self s7 = (Return refresh_token, s8) →
  persist_token_information self client_id code (get_scope params) access_token type
    expires_in refresh_token s8 = (Return (), s9) →
  let r := get_token json_dumps self "authorization_code" client_id client_secret
             redirect_uri code params s in
  ∃ resp (d : gmap string json),
    r = (Return resp, s9,
         [Invoked (CValidateClientId client_id) (Return (VBool true));
          Invoked (CValidateClientSecret client_id client_secret) (Return (VBool true));
          Invoked (CValidateScope client_id (get_scope params)) (Return (VBool true));
          Invoked (CValidateAuthorizationCode client_id code) (Return (VBool true));
          Invoked CGenerateAccessToken (Return (VStr access_token));
          Invoked CTokenType (Return (VStr type));
          Invoked CTokenExpiresIn (Return (VInt expires_in));
          Invoked CGenerateRefreshToken (Return (VStr refresh_token));
          Invoked (CPersistTokenInformation client_id code (get_scope params)
                     access_token type expires_in refresh_token) (Return VNone)])
    ∧ length (filter (λ ev, is_persist_token_information ev = true) (trace r)) = 1%nat
    ∧ resp = _make_json_response json_dumps (JDict d) None 200
    ∧ status_code resp = 200
    ∧ raw resp = json_dumps (JDict d)
    ∧ dom d = {[ "access_token"; "token_type"; "expires_in"; "refresh_token" ]}
    ∧ d !! "access_token" = Some (JStr access_token)
    ∧ d !! "token_type" = Some (JStr type)
    ∧ d !! "expires_in" = Some (JInt expires_in)
    ∧ d !! "refresh_token" = Some (JStr refresh_token).
Proof.
  intros H1 H2 H3 H4 H5 H6 H7 H8 H9 r. subst r. unfold get_token.
  rewrite decide_False by (intros H; by apply H).
  rewrite (bind_invoke_Return _ _ _ _ _ _ _ H1), (bind_invoke_Return _ _ _ _ _ _ _ H2),
    (bind_invoke_Return _ _ _ _ _ _ _ H3), (bind_invoke_Return _ _ _ _ _ _ _ H4).
  cbn [negb andb].
  rewrite (bind_invoke_Return _ _ _ _ _ _ _ H5), (bind_invoke_Return _ _ _ _ _ _ _ H6),
    (bind_invoke_Return _ _ _ _ _ _ _ H7), (bind_invoke_Return _ _ _ _ _ _ _ H8),
    (bind_invoke_Return _ _ _ _ _ _ _ H9), !after_after.
  eexists _, _. split; [reflexivity|].
  do 4 (split; [reflexivity|]).
  split; [|by repeat split].
  rewrite !dom_insert_L, dom_singleton_L. set_solver.
Qed.

Lemma get_authorization_code_propagates response_type client_id redirect_uri params :
  propagates (get_authorization_code build_url self response_type client_id redirect_uri
                params).
Proof. unfold get_authorization_code. paths. Qed.

Lemma get_token_propagates grant_type client_id client_secret redirect_uri code params :
  propagates (get_token json_dumps self grant_type client_id client_secret redirect_uri
                code params).
Proof. unfold get_token. paths. Qed.

(** C10: [get_authorization_code] never invokes [validate_client_secret],
    [validate_authorization_code] or [persist_token_information], and
    [get_token] never invokes [validate_access] or
    [persist_authorization_code], whatever the arguments, the hooks and
    the host's state. *)
Theorem phases_keep_to_their_hooks :
  (∀ response_type client_id redirect_uri params s,
     Forall (λ ev, invokes token_only ev = false)
       (trace (get_authorization_code build_url self response_type client_id redirect_uri
                 params s)))
  ∧ (∀ grant_type client_id client_secret redirect_uri code params s,
       Forall (λ ev, invokes authorize_only ev = false)
         (trace (get_token json_dumps self grant_type client_id client_secret
                   redirect_uri code params s))).
Proof.
  split.
  - intros response_type client_id redirect_uri params.
    change (emits (λ ev, invokes token_only ev = false)
              (get_authorization_code build_url self response_type client_id
                 redirect_uri params)).
    unfold get_authorization_code. paths.
  - intros grant_type client_id client_secret redirect_uri code params.
    change (emits (λ ev, invokes authorize_only ev = false)
              (get_token json_dumps self grant_type client_id client_secret
                 redirect_uri code params)).
    unfold get_token. paths.
Qed.

(** C5: in every call of [get_authorization_code] and of [get_token],
    the validation hooks are invoked before anything else is; and when a
    check fails (the type asked for is not the supported one, or a
    validation hook returned false), neither persistence hook and no
    generator is invoked, and what the call returns, if a hook does not
    raise, is an error response. *)
Theorem failed_check_has_no_effect :
  (∀ response_type client_id redirect_uri params s,
     let r := get_authorization_code build_url self response_type client_id redirect_uri
                params s in
     checks_first (trace r) = true
     ∧ (response_type ≠ "code" ∨ check_failed (trace r) →
          no_effect (trace r)
          ∧ ∀ resp, result r = Return resp →
              ∃ err, err ∈ ["unsupported_response_type"; "unauthorized_client";
                            "access_denied"; "invalid_scope"]
                     ∧ resp = redirect_error redirect_uri err))
  ∧ (∀ grant_type client_id client_secret redirect_uri code params s,
       let r := get_token json_dumps self grant_type client_id client_secret redirect_uri
                  code params s in
       checks_first (trace r) = true
       ∧ (grant_type ≠ "authorization_code" ∨ check_failed (trace r) →
            no_effect (trace r)
            ∧ ∀ resp, result r = Return resp →
                ∃ err, err ∈ ["unsupported_grant_type"; "invalid_client";
                              "invalid_grant"; "invalid_scope"]
                       ∧ resp = json_error err)).
Proof.
  split.
  - intros response_type client_id redirect_uri params s. cbv zeta.
    unfold get_authorization_code. case_decide as Hrt.
    { split; [done|]. intros _. split; [constructor|].
      intros resp [= <-]. eexists. split; [|done]. set_solver. }
    repeat first [run_hook | branch].
    all: failing_path.
  - intros grant_type client_id client_secret redirect_uri code params s. cbv zeta.
    unfold get_token. case_decide as Hgt.
    { split; [done|]. intros _. split; [constructor|].
      intros resp [= <-]. eexists. split; [|done]. set_solver. }
    repeat first [run_hook | branch].
    all: failing_path.
Qed.
End Operations.

(** ** The entry points that take a URL *)

Section EntryPoints.
Context {S : Type} {order : DictOrder}.
Variable build_url : string → gmap string (option string) → string.
Variable url_query_params : string → gmap string string.
Variable json_dumps : json → string.
Variable self : AuthorizationProvider (S := S).
Implicit Types (s : S) (kwargs : gmap string string) (e : exn).

Local Abbreviation redirect_error := (_make_redirect_error_response build_url).
Local Abbreviation json_error := (_make_json_error_response json_dumps).
Local Abbreviation authorize_from_url :=
(get_authorization_code_from_url build_url url_query_params json_dumps self).
Local Abbreviation token_from_url := (get_token_from_url url_query_params json_dumps self).

(** Unpacking the mapping either fails with a [TypeError] before anything
  runs, or finds every named parameter and runs the operation. *)
Lemma apply_get_authorization_code_cases kwargs s :
(∃ msg, apply_get_authorization_code build_url self kwargs s = (Raise (TypeError msg), s, []))
∨ (∃ response_type client_id redirect_uri rest,
     kwargs !! "redirect_uri" = Some redirect_uri
     ∧ apply_get_authorization_code build_url self kwargs
       = get_authorization_code build_url self response_type client_id redirect_uri rest).
Proof.
unfold apply_get_authorization_code. case_decide; [left; by eexists|].
destruct (kwargs !! "response_type"), (kwargs !! "client_id"),
  (kwargs !! "redirect_uri") eqn:Hu; try (left; by eexists).
right. by eexists _, _, _, _.
Qed.

Lemma apply_get_token_cases kwargs s :
(∃ msg, apply_get_token json_dumps self kwargs s = (Raise (TypeError msg), s, []))
∨ (∃ grant_type client_id client_secret redirect_uri code rest,
     apply_get_token json_dumps self kwargs
     = get_token json_dumps self grant_type client_id client_secret redirect_uri code
         rest).
Proof.
unfold apply_get_token. case_decide; [left; by eexists|].
destruct (kwargs !! "grant_type"), (kwargs !! "client_id"),
  (kwargs !! "client_secret"), (kwargs !! "redirect_uri"), (kwargs !! "code");
  try (left; by eexists).
right. by eexists _, _, _, _, _, _.
Qed.

Lemma apply_get_authorization_code_lacks kwargs s :
lacks ["response_type"; "client_id"; "redirect_uri"] kwargs →
∃ msg, apply_get_authorization_code build_url self kwargs s = (Raise (TypeError msg), s, []).
Proof.
intros (k & Hk & Hnone). unfold apply_get_authorization_code.
case_decide; [by eexists|].
repeat (apply elem_of_cons in Hk as [->|Hk]; [rewrite Hnone; repeat case_match; by eexists|]).
by apply elem_of_nil in Hk.
Qed.

Lemma apply_get_token_lacks kwargs s :
lacks ["grant_type"; "client_id"; "client_secret"; "redirect_uri"; "code"] kwargs →
∃ msg, apply_get_token json_dumps self kwargs s = (Raise (TypeError msg), s, []).
Proof.
intros (k & Hk & Hnone). unfold apply_get_token.
case_decide; [by eexists|].
repeat (apply elem_of_cons in Hk as [->|Hk]; [rewrite Hnone; repeat case_match; by eexists|]).
by apply elem_of_nil in Hk.
Qed.

(** A fault of a hook inside the operation reaches the [try] statement as
  the exception the operation ends with, and the call had a
  [redirect_uri]. *)
Lemma apply_get_authorization_code_fault kwargs s e :
faulted e (trace (apply_get_authorization_code build_url self kwargs s)) →
result (apply_get_authorization_code build_url self kwargs s) = Raise e
∧ is_Some (kwargs !! "redirect_uri").
Proof.
intros He.
destruct (apply_get_authorization_code_cases kwargs s)
  as [[msg Hrun]|(rt & cid & ru & rest & Hu & Hrun)].
- rewrite Hrun in He. by apply faulted_nil in He.
- rewrite Hrun in *. split; [|by rewrite Hu].
  by apply get_authorization_code_propagates.
Qed.

Lemma apply_get_token_fault kwargs s e :
faulted e (trace (apply_get_token json_dumps self kwargs s)) →
result (apply_get_token json_dumps self kwargs s) = Raise e.
Proof.
intros He.
destruct (apply_get_token_cases kwargs s)
  as [[msg Hrun]|(gt & cid & secret & ru & code & rest & Hrun)].
- rewrite Hrun in He. by apply faulted_nil in He.
- rewrite Hrun in *. by apply get_token_propagates.
Qed.

(** The [try] statement of [get_authorization_code_from_url], clause by
  clause. *)
Lemma get_authorization_code_from_url_run url s :
let params := url_query_params url in
authorize_from_url url s =
  match apply_get_authorization_code build_url self params s with
  | (Return resp, s1, t1) => (Return resp, s1, t1)
  | (Raise e, s1, t1) =>
      if isinstance_TypeError e then
        (Return (match params !! "redirect_uri" with
                 | Some u => redirect_error u "invalid_request"
                 | None => _missing_redirect_uri_response json_dumps
                 end), s1, t1 ++ [Logged e])
      else if isinstance_StandardError e then
        match params !! "redirect_uri" with
        | Some u => (Return (redirect_error u "server_error"), s1, t1 ++ [Logged e])
        | None => (Raise (KeyError "redirect_uri"), s1, t1 ++ [Logged e])
        end
      else (Raise e, s1, t1)
  end.
Proof.
intros params. unfold get_authorization_code_from_url, try_except. fold params.
destruct (apply_get_authorization_code build_url self params s) as [[[resp|e] s1] t1];
  [done|].
destruct (isinstance_TypeError e); [|destruct (isinstance_StandardError e); [|done]].
- unfold bind, _handle_exception, getitem.
  destruct (params !! "redirect_uri") as [u|] eqn:Hu.
  + by rewrite decide_True.
  + rewrite decide_False by (by intros [? ?]). done.
- unfold bind, _handle_exception, getitem.
  by destruct (params !! "redirect_uri") as [u|].
Qed.

Lemma get_token_from_url_run url s :
token_from_url url s =
  match apply_get_token json_dumps self (url_query_params url) s with
  | (Return resp, s1, t1) => (Return resp, s1, t1)
  | (Raise e, s1, t1) =>
      if isinstance_TypeError e then
        (Return (json_error "invalid_request"), s1, t1 ++ [Logged e])
      else if isinstance_StandardError e then
        (Return (json_error "server_error"), s1, t1 ++ [Logged e])
      else (Raise e, s1, t1)
  end.
Proof.
unfold get_token_from_url, try_except.
destruct (apply_get_token json_dumps self (url_query_params url) s) as [[[resp|e] s1] t1];
  [done|].
by destruct (isinstance_TypeError e); [|destruct (isinstance_StandardError e)].
Qed.

Lemma faulted_snoc_Logged e e' t : faulted e (t ++ [Logged e']) → faulted e t.
Proof.
intros [He|[c Hc]]%faulted_app; [done|].
by apply list_elem_of_singleton in Hc.
Qed.

(** A hook fault seen in the trace of the entry point is the exception its
  [try] statement received. *)
Lemma get_authorization_code_from_url_fault url s e :
faulted e (trace (authorize_from_url url s)) →
∃ u s1 t1,
  url_query_params url !! "redirect_uri" = Some u
  ∧ apply_get_authorization_code build_url self (url_query_params url) s = (Raise e, s1, t1).
Proof.
rewrite get_authorization_code_from_url_run. cbv zeta.
pose proof (apply_get_authorization_code_fault (url_query_params url) s e) as Hbody.
destruct (apply_get_authorization_code build_url self (url_query_params url) s)
  as [[[resp|e'] s1] t1].
- intros He. by destruct (Hbody He).
- intros He.
  assert (faulted e t1) as He'.
  { destruct (isinstance_TypeError e'); [by apply faulted_snoc_Logged in He|].
    destruct (isinstance_StandardError e'); [|done].
    destruct (url_query_params url !! "redirect_uri");
      by apply faulted_snoc_Logged in He. }
  destruct (Hbody He') as [[= ->] [u Hu]]. by exists u, s1, t1.
Qed.

Lemma get_token_from_url_fault url s e :
faulted e (trace (token_from_url url s)) →
∃ s1 t1, apply_get_token json_dumps self (url_query_params url) s = (Raise e, s1, t1).
Proof.
rewrite get_token_from_url_run.
pose proof (apply_get_token_fault (url_query_params url) s e) as Hbody.
destruct (apply_get_token json_dumps self (url_query_params url) s)
  as [[[resp|e'] s1] t1].
- intros He. by specialize (Hbody He).
- intros He.
  assert (faulted e t1) as He'.
  { destruct (isinstance_TypeError e'); [by apply faulted_snoc_Logged in He|].
    destruct (isinstance_StandardError e'); [|done].
    by apply faulted_snoc_Logged in He. }
  specialize (Hbody He') as [= ->]. by exists s1, t1.
Qed.

(** C7: when the parameters parsed from the URL lack one that the
  operation names, [get_authorization_code_from_url] answers
  [invalid_request] without invoking a hook: with the redirect error
  response to the parsed [redirect_uri] when that one is present, and
  otherwise with the missing-redirect-uri response, which is the JSON
  error response for [invalid_request], of status 400; and
  [get_token_from_url] answers with the JSON error response for
  [invalid_request].  The [TypeError] of the call is logged. *)
Theorem missing_parameter_is_invalid_request url s :
let params := url_query_params url in
(lacks ["response_type"; "client_id"; "redirect_uri"] params →
   ∃ msg,
     authorize_from_url url s =
       (Return (match params !! "redirect_uri" with
                | Some u => redirect_error u "invalid_request"
                | None => _missing_redirect_uri_response json_dumps
                end), s, [Logged (TypeError msg)]))
∧ (_missing_redirect_uri_response json_dumps = json_error "invalid_request"
   ∧ status_code (_missing_redirect_uri_response json_dumps) = 400)
∧ (lacks ["grant_type"; "client_id"; "client_secret"; "redirect_uri"; "code"] params →
     ∃ msg,
       token_from_url url s =
         (Return (json_error "invalid_request"), s, [Logged (TypeError msg)])).
Proof.
intros params. split; [|split; [done|]].
- intros [msg Hrun]%(apply_get_authorization_code_lacks _ s). exists msg.
  rewrite get_authorization_code_from_url_run. cbv zeta. fold params. by rewrite Hrun.
- intros [msg Hrun]%(apply_get_token_lacks _ s). exists msg.
  rewrite get_token_from_url_run. fold params. by rewrite Hrun.
Qed.


(** What the clause for [StandardError] does answer: a failure raised by a
    hook whose class lies below [StandardError] and is not [TypeError] is
    caught inside the entry point, logged, and answered as [server_error]:
    by [get_authorization_code_from_url] with the redirect error response,
    of status 302, to the parsed [redirect_uri], and by
    [get_token_from_url] with the JSON error response, of status 400.  The
    operations [get_authorization_code] and [get_token] themselves end with
    whatever exception a hook raises. *)
Theorem hook_fault_is_server_error url s e :
isinstance_StandardError e = true →
isinstance_TypeError e = false →
(faulted e (trace (authorize_from_url url s)) →
   ∃ u, url_query_params url !! "redirect_uri" = Some u
        ∧ result (authorize_from_url url s) = Return (redirect_error u "server_error")
        ∧ status_code (redirect_error u "server_error") = 302
        ∧ Logged e ∈ trace (authorize_from_url url s))
∧ (faulted e (trace (token_from_url url s)) →
     result (token_from_url url s) = Return (json_error "server_error")
     ∧ status_code (json_error "server_error") = 400
     ∧ Logged e ∈ trace (token_from_url url s))
∧ (∀ e' response_type client_id redirect_uri params s',
     let r := get_authorization_code build_url self response_type client_id redirect_uri
                params s' in
     faulted e' (trace r) → result r = Raise e')
∧ (∀ e' grant_type client_id client_secret redirect_uri code params s',
     let r := get_token json_dumps self grant_type client_id client_secret redirect_uri
                code params s' in
     faulted e' (trace r) → result r = Raise e').
Proof.
intros Hstd Hty. split; [|split; [|split]].
- intros (u & s1 & t1 & Hu & Hrun)%get_authorization_code_from_url_fault.
  exists u. split; [done|].
  rewrite get_authorization_code_from_url_run. cbv zeta. rewrite Hrun, Hty, Hstd, Hu.
  split; [done|]. split; [done|]. rewrite trace_run. apply elem_of_app. right. by left.
- intros (s1 & t1 & Hrun)%get_token_from_url_fault.
  rewrite get_token_from_url_run, Hrun, Hty, Hstd.
  split; [done|]. split; [done|]. rewrite trace_run. apply elem_of_app. right. by left.
- intros e' response_type client_id redirect_uri params s' r.
  apply get_authorization_code_propagates.
- intros e' grant_type client_id client_secret redirect_uri code params s' r.
  apply get_token_propagates.
Qed.

End EntryPoints.

(** ** The scenarios of the in-memory host *)

Section Scenarios.
#[local] Existing Instance cpython2.order.

Lemma get_authorization_code_checks_witness :
  get_authorization_code utils.build_url Memory.demo "token" "client1" "https://app/cb"
    Memory.extra (Memory.empty true)
  = (Return (_make_redirect_error_response utils.build_url "https://app/cb"
               "unsupported_response_type"), Memory.empty true, [])
  ∧ get_authorization_code utils.build_url Memory.demo "code" "client1" "https://app/cb"
      Memory.extra (Memory.empty false)
    = (Return (_make_redirect_error_response utils.build_url "https://app/cb"
                 "access_denied"), Memory.empty false,
       [Invoked (CValidateClientId "client1") (Return (VBool true));
        Invoked CValidateAccess (Return (VBool false));
        Invoked (CValidateScope "client1" "read") (Return (VBool true))]).
Proof.
  split.
  - assert ("token" ≠ "code") as Hne by done.
    exact (proj1 (get_authorization_code_checks utils.build_url Memory.demo "token"
                    "client1" "https://app/cb" Memory.extra (Memory.empty true)) Hne).
  - pose proof (proj2 (get_authorization_code_checks utils.build_url Memory.demo "code"
                         "client1" "https://app/cb" Memory.extra (Memory.empty false))
                  eq_refl true (Memory.empty false) false (Memory.empty false) true
                  (Memory.empty false)
                  ltac:(vm_compute; reflexivity) ltac:(vm_compute; reflexivity)
                  ltac:(vm_compute; reflexivity)) as (_ & _ & H & _).
    exact (H eq_refl eq_refl).
Defined.

Lemma get_token_checks_witness :
  get_token JSON.dumps Memory.demo "password" "client1" "secret1" "https://app/cb" "code0"
    ∅ Memory.authorized
  = (Return (_make_json_error_response JSON.dumps "unsupported_grant_type"),
     Memory.authorized, [])
  ∧ get_token JSON.dumps Memory.demo "authorization_code" "client1" "secret1"
      "https://app/cb" "badcode" ∅ Memory.authorized
    = (Return (_make_json_error_response JSON.dumps "invalid_grant"), Memory.authorized,
       [Invoked (CValidateClientId "client1") (Return (VBool true));
        Invoked (CValidateClientSecret "client1" "secret1") (Return (VBool true));
        Invoked (CValidateScope "client1" EmptyString) (Return (VBool true));
        Invoked (CValidateAuthorizationCode "client1" "badcode") (Return (VBool false))]).
Proof.
  split.
  - assert ("password" ≠ "authorization_code") as Hne by done.
    exact (proj1 (get_token_checks JSON.dumps Memory.demo "password" "client1" "secret1"
                    "https://app/cb" "code0" ∅ Memory.authorized) Hne).
  - pose proof (proj2 (get_token_checks JSON.dumps Memory.demo "authorization_code"
                         "client1" "secret1" "https://app/cb" "badcode" ∅
                         Memory.authorized)
                  eq_refl true Memory.authorized true Memory.authorized true
                  Memory.authorized false Memory.authorized
                  ltac:(vm_compute; reflexivity) ltac:(vm_compute; reflexivity)
                  ltac:(vm_compute; reflexivity) ltac:(vm_compute; reflexivity))
      as (_ & _ & H & _).
    exact (H eq_refl eq_refl eq_refl).
Defined.

Lemma get_authorization_code_success_witness :
  ∃ resp,
    get_authorization_code utils.build_url Memory.demo "code" "client1" "https://app/cb"
      Memory.extra (Memory.empty true)
    = (Return resp, Memory.authorized,
       [Invoked (CValidateClientId "client1") (Return (VBool true));
        Invoked CValidateAccess (Return (VBool true));
        Invoked (CValidateScope "client1" "read") (Return (VBool true));
        Invoked CGenerateAuthorizationCode (Return (VStr "code0"));
        Invoked (CPersistAuthorizationCode "client1" "code0" "read") (Return VNone)])
    ∧ status_code resp = 302.
Proof.
  destruct (get_authorization_code_success utils.build_url Memory.demo "client1"
              "https://app/cb" Memory.extra (Memory.empty true) (Memory.empty true)
              (Memory.empty true) (Memory.empty true) "code0"
              (Memory.mkStore true [] [] 1) Memory.authorized
              ltac:(vm_compute; reflexivity) ltac:(vm_compute; reflexivity)
              ltac:(vm_compute; reflexivity) ltac:(vm_compute; reflexivity)
              ltac:(vm_compute; reflexivity))
    as (resp & m & Hrun & _ & Hstatus & _).
  exists resp. split; [exact Hrun | exact Hstatus].
Defined.

Lemma get_token_success_witness :
  ∃ resp,
    get_token JSON.dumps Memory.demo "authorization_code" "client1" "secret1"
      "https://app/cb" "code0" ∅ Memory.authorized
    = (Return resp, Memory.mkStore true [("client1", "code0", "read")]
                      [("client1", "access1", "refresh2")] 3,
       [Invoked (CValidateClientId "client1") (Return (VBool true));
        Invoked (CValidateClientSecret "client1" "secret1") (Return (VBool true));
        Invoked (CValidateScope "client1" EmptyString) (Return (VBool true));
        Invoked (CValidateAuthorizationCode "client1" "code0") (Return (VBool true));
        Invoked CGenerateAccessToken (Return (VStr "access1"));
        Invoked CTokenType (Return (VStr "Bearer"));
        Invoked CTokenExpiresIn (Return (VInt 3600));
        Invoked CGenerateRefreshToken (Return (VStr "refresh2"));
        Invoked (CPersistTokenInformation "client1" "code0" EmptyString "access1" "Bearer"
                   3600 "refresh2") (Return VNone)])
    ∧ status_code resp = 200.
Proof.
  destruct (get_token_success JSON.dumps Memory.demo "client1" "secret1" "https://app/cb"
              "code0" ∅ Memory.authorized Memory.authorized Memory.authorized
              Memory.authorized Memory.authorized
              "access1" (Memory.mkStore true [("client1", "code0", "read")] [] 2)
              "Bearer" (Memory.mkStore true [("client1", "code0", "read")] [] 2)
              3600 (Memory.mkStore true [("client1", "code0", "read")] [] 2)
              "refresh2" (Memory.mkStore true [("client1", "code0", "read")] [] 3)
              (Memory.mkStore true [("client1", "code0", "read")]
                 [("client1", "access1", "refresh2")] 3)
              ltac:(vm_compute; reflexivity) ltac:(vm_compute; reflexivity)
              ltac:(vm_compute; reflexivity) ltac:(vm_compute; reflexivity)
              ltac:(vm_compute; reflexivity) ltac:(vm_compute; reflexivity)
              ltac:(vm_compute; reflexivity) ltac:(vm_compute; reflexivity)
              ltac:(vm_compute; reflexivity))
    as (resp & d & Hrun & _ & _ & Hstatus & _).
  exists resp. split; [exact Hrun | exact Hstatus].
Defined.

Lemma failed_check_has_no_effect_witness :
  no_effect (trace (get_authorization_code utils.build_url Memory.demo "code" "client1"
                      "https://app/cb" Memory.extra (Memory.empty false)))
  ∧ no_effect (trace (get_token JSON.dumps Memory.demo "authorization_code" "client1"
                        "secret1" "https://app/cb" "badcode" ∅ Memory.authorized)).
Proof.
  pose proof (failed_check_has_no_effect utils.build_url JSON.dumps Memory.demo)
    as [Hauthorize Htoken].
  split.
  - apply (proj2 (Hauthorize "code" "client1" "https://app/cb" Memory.extra
                    (Memory.empty false))).
    right. exists CValidateAccess. split; [reflexivity|].
    vm_compute. apply list_elem_of_further, list_elem_of_here.
  - apply (proj2 (Htoken "authorization_code" "client1" "secret1" "https://app/cb"
                    "badcode" ∅ Memory.authorized)).
    right. exists (CValidateAuthorizationCode "client1" "badcode"). split; [reflexivity|].
    vm_compute. do 3 apply list_elem_of_further. apply list_elem_of_here.
Defined.

Lemma missing_parameter_is_invalid_request_witness :
  (∃ msg, Memory.authorize_from_url Memory.demo Memory.no_client_url (Memory.empty true)
          = (Return (_make_redirect_error_response utils.build_url "https://app/cb"
                       "invalid_request"), Memory.empty true, [Logged (TypeError msg)]))
  ∧ (∃ msg, Memory.token_from_url Memory.demo Memory.no_code_url Memory.authorized
            = (Return (_make_json_error_response JSON.dumps "invalid_request"),
               Memory.authorized, [Logged (TypeError msg)])).
Proof.
  pose proof (missing_parameter_is_invalid_request utils.build_url utils.url_query_params
                JSON.dumps Memory.demo) as H.
  unfold Memory.authorize_from_url, Memory.token_from_url.
  split.
  - destruct (proj1 (H Memory.no_client_url (Memory.empty true))) as [msg Hrun].
    { exists "client_id". split; [|vm_compute; reflexivity].
      apply list_elem_of_further, list_elem_of_here. }
    assert (utils.url_query_params Memory.no_client_url !! "redirect_uri"
            = Some "https://app/cb") as Hu by (vm_compute; reflexivity).
    rewrite Hu in Hrun. exists msg. exact Hrun.
  - destruct (proj2 (proj2 (H Memory.no_code_url Memory.authorized))) as [msg Hrun].
    { exists "code". split; [|vm_compute; reflexivity].
      do 4 apply list_elem_of_further. apply list_elem_of_here. }
    exists msg. exact Hrun.
Defined.


Lemma hook_fault_is_server_error_witness :
  ∃ u, utils.url_query_params Memory.authorize_url !! "redirect_uri" = Some u
       ∧ result (Memory.authorize_from_url
                   (Memory.failing_scope (StandardError "IOError") Memory.demo)
                   Memory.authorize_url (Memory.empty true))
         = Return (_make_redirect_error_response utils.build_url u "server_error").
Proof.
  unfold Memory.authorize_from_url.
  destruct (proj1 (hook_fault_is_server_error utils.build_url utils.url_query_params
                     JSON.dumps (Memory.failing_scope (StandardError "IOError") Memory.demo)
                     Memory.authorize_url (Memory.empty true) (StandardError "IOError")
                     eq_refl eq_refl))
    as (u & Hu & Hresult & _).
  { exists (CValidateScope "client1" "read").
    vm_compute. do 2 apply list_elem_of_further. apply list_elem_of_here. }
  exists u. split; [exact Hu | exact Hresult].
Defined.

(** C6, where the code fails it: with a scope check that raises, the
    authorize entry point does not answer [server_error] when the exception
    is a [TypeError] (the clause meant for missing parameters takes it, and
    the answer is the [invalid_request] redirect, a different response),
    nor when its class is outside [StandardError] (the clause meant for all
    other errors does not catch it: the entry point itself ends with the
    exception). *)
Lemma hook_fault_not_always_server_error :
  (faulted (TypeError "unsupported operand")
     (trace (Memory.authorize_from_url
               (Memory.failing_scope (TypeError "unsupported operand") Memory.demo)
               Memory.authorize_url (Memory.empty true)))
   ∧ result (Memory.authorize_from_url
               (Memory.failing_scope (TypeError "unsupported operand") Memory.demo)
               Memory.authorize_url (Memory.empty true))
     = Return (_make_redirect_error_response utils.build_url "https://app/cb"
                 "invalid_request")
   ∧ _make_redirect_error_response utils.build_url "https://app/cb" "invalid_request"
     ≠ _make_redirect_error_response utils.build_url "https://app/cb" "server_error")
  ∧ (faulted (Exception "StorageError")
       (trace (Memory.authorize_from_url
                 (Memory.failing_scope (Exception "StorageError") Memory.demo)
                 Memory.authorize_url (Memory.empty true)))
     ∧ result (Memory.authorize_from_url
                 (Memory.failing_scope (Exception "StorageError") Memory.demo)
                 Memory.authorize_url (Memory.empty true))
       = Raise (Exception "StorageError")).
Proof.
  split; [split; [|split]|split].
  - exists (CValidateScope "client1" "read").
    vm_compute. do 2 apply list_elem_of_further. apply list_elem_of_here.
  - vm_compute. reflexivity.
  - intros H. apply (f_equal (λ r, headers r !! "Location")) in H.
    vm_compute in H. discriminate H.
  - exists (CValidateScope "client1" "read").
    vm_compute. do 2 apply list_elem_of_further. apply list_elem_of_here.
  - vm_compute. reflexivity.
Qed.

(** C8, where the code fails it: a caller that gives the header
    [content-type] has it in the response in place of the fixed
    [Content-Type], whatever the payload and the status.  The dict that
    [_make_json_response] hands on holds both names; CPython 2 enumerates
    [Content-Type] first, and the headers of the response, which keep one
    entry for a name in any case, keep the one set last. *)
Theorem caller_header_in_another_case_wins (json_dumps : json → string) data status :
  let given : gmap string string := {[ "content-type" := "text/html" ]} in
  let r := _make_json_response (order := cpython2.order) json_dumps data (Some given)
             status in
  @dict_items cpython2.order
    (<["Pragma" := "no-cache"]>
       (<["Cache-Control" := "no-store"]>
          (<["Content-Type" := "application/json;charset=UTF-8"]> given)))
  = [("Content-Type", "application/json;charset=UTF-8"); ("content-type", "text/html");
     ("Pragma", "no-cache"); ("Cache-Control", "no-store")]
  ∧ headers r = {[ "content-type" := "text/html";
                   "Cache-Control" := "no-store";
                   "Pragma" := "no-cache" ]}
  ∧ ci_getitem "Content-Type" (headers r) = Some "text/html".
Proof.
  intros given r. subst r given.
  unfold _make_json_response, _make_response. cbn [headers].
  split; [vm_compute; reflexivity|]. split; vm_compute; reflexivity.
Qed.

(** The two requests of the specification's scenarios, run on the
    in-memory host. *)
Example authorize_scenario :
  let r := Memory.authorize_from_url Memory.demo Memory.authorize_url (Memory.empty true) in
  status_code <$> (match result r with Return resp => Some resp | Raise _ => None end)
  = Some 302
  ∧ (match result r with Return resp => headers resp !! "Location" | Raise _ => None end)
    = Some "https://app/cb?scope=read&state=xyz&code=code0"
  ∧ final r = Memory.authorized.
Proof. vm_compute. repeat split. Qed.

(** The base class itself, whose validation methods are not implemented:
    the entry point answers [server_error], [NotImplementedError] being a
    [StandardError]. *)
Example base_class_answers_server_error :
  get_authorization_code_from_url (S := ()) utils.build_url utils.url_query_params JSON.dumps
    (base (λ _ s, (Return EmptyString, s))) Memory.authorize_url ()
  = (Return (_make_redirect_error_response utils.build_url "https://app/cb" "server_error"),
     (),
     [Invoked (CValidateClientId "client1")
        (Raise (NotImplementedError "Subclasses must implement validate_client_id."));
      Logged (NotImplementedError "Subclasses must implement validate_client_id.")]).
Proof. vm_compute. reflexivity. Qed.


End Scenarios.

(** * Further properties of the provider *)

Section MoreLaws.
Context {S : Type}.
Implicit Types (s : S) (t : list event) (e : exn).

Lemma raises_last_ret {A} (a : A) : raises_last (ret (S := S) a).
Proof. by intros s e. Qed.

Lemma raises_last_invoke {A} c inj (h : hook S A) : raises_last (invoke c inj h).
Proof.
  intros s e. unfold invoke. destruct (h s) as [[a|e'] s1]; [done|].
  intros [= ->]. by exists c, [].
Qed.

Lemma raises_last_bind {A B} (m : M S A) (k : A → M S B) :
  raises_last m → (∀ a, raises_last (k a)) → raises_last (bind m k).
Proof.
  intros Hm Hk s e. specialize (Hm s e). unfold bind.
  destruct (m s) as [[[a|e'] s1] t1].
  - rewrite result_after, trace_after. intros (c & t & ->)%Hk.
    exists c, (t1 ++ t). by rewrite (assoc_L (++)).
  - intros [= ->]. by apply Hm.
Qed.

Lemma returns_ret {A} (Q : A → Prop) (a : A) : Q a → returns Q (ret (S := S) a).
Proof. by intros HQ s a' [= <-]. Qed.

Lemma returns_bind {A B} (Q : B → Prop) (m : M S A) (k : A → M S B) :
  (∀ a, returns Q (k a)) → returns Q (bind m k).
Proof.
  intros Hk s b. unfold bind. destruct (m s) as [[[a|e] s1] t1]; [|done].
  rewrite result_after. apply Hk.
Qed.
End MoreLaws.

#[local] Hint Resolve raises_last_ret raises_last_invoke : runs.

(** Splits a goal on what a method answers into one goal per [return]. *)
Ltac answers :=
  repeat first
    [ apply raises_last_bind; [solve [auto with runs] | intros ?]
    | apply returns_bind; intros ?
    | case_decide
    | match goal with |- context [if negb ?b then _ else _] => destruct b; simpl end ];
  auto with runs.

Section Answers.
Context {S : Type} {order : DictOrder}.
Variable build_url : string → gmap string (option string) → string.
Variable json_dumps : json → string.
Variable self : AuthorizationProvider (S := S).
Implicit Types (s : S) (params : gmap string string).

Lemma json_response_json_headers data status :
  headers (_make_json_response json_dumps data None status) = json_headers.
Proof.
  unfold _make_json_response, _make_response. cbn [headers].
  assert (<["Pragma" := "no-cache"]>
            (<["Cache-Control" := "no-store"]>
               (<["Content-Type" := "application/json;charset=UTF-8"]> ∅))
          = json_headers) as ->.
  { unfold json_headers. apply map_eq. intros name.
    rewrite !lookup_insert. repeat case_decide; subst; try done.
    by rewrite lookup_empty, lookup_singleton_ne. }
  apply ci_update_distinct, case_distinct_json_headers.
Qed.

(** X1: whatever [get_authorization_code] returns is a redirect: status
    302, an empty body, and [Location] as its only header, built by
    [build_url] from the caller's [redirect_uri] and a mapping in which
    [response_type], [client_id] and [redirect_uri] are marked absent. *)
Theorem get_authorization_code_answers_redirect response_type client_id redirect_uri
    params s resp :
  result (get_authorization_code build_url self response_type client_id redirect_uri params s)
  = Return resp →
  status_code resp = 302
  ∧ raw resp = EmptyString
  ∧ ∃ m : gmap string (option string),
      headers resp = {[ "Location" := build_url redirect_uri m ]}
      ∧ m !! "response_type" = Some None
      ∧ m !! "client_id" = Some None
      ∧ m !! "redirect_uri" = Some None.
Proof.
  revert s resp.
  change (returns (λ resp,
            status_code resp = 302 ∧ raw resp = EmptyString
            ∧ ∃ m : gmap string (option string),
                headers resp = {[ "Location" := build_url redirect_uri m ]}
                ∧ m !! "response_type" = Some None
                ∧ m !! "client_id" = Some None
                ∧ m !! "redirect_uri" = Some None)
            (get_authorization_code build_url self response_type client_id redirect_uri
               params)).
  unfold get_authorization_code, _make_redirect_error_response. answers.
  all: apply returns_ret; split; [reflexivity|]; split; [reflexivity|]; eexists;
    (split; [apply response_header_single|]).
  all: first [by repeat split | by repeat split; apply lookup_union_Some_l].
Qed.

Lemma get_authorization_code_raises_last response_type client_id redirect_uri params :
  raises_last (get_authorization_code build_url self response_type client_id redirect_uri
                 params).
Proof. unfold get_authorization_code. answers. Qed.

Lemma get_token_raises_last grant_type client_id client_secret redirect_uri code params :
  raises_last (get_token json_dumps self grant_type client_id client_secret redirect_uri
                 code params).
Proof. unfold get_token. answers. Qed.

Lemma get_authorization_code_never_logs response_type client_id redirect_uri params :
  emits (λ ev, is_logged ev = false)
    (get_authorization_code build_url self response_type client_id redirect_uri params).
Proof. unfold get_authorization_code. paths. Qed.

Lemma get_token_never_logs grant_type client_id client_secret redirect_uri code params :
  emits (λ ev, is_logged ev = false)
    (get_token json_dumps self grant_type client_id client_secret redirect_uri code params).
Proof. unfold get_token. paths. Qed.

(** X4: [get_authorization_code] and [get_token] raise nothing of their
    own ([build_url] and [json.dumps] taken as total): an exception that
    ends one of them was raised by the hook invoked last; and neither
    hands anything to the logger. *)
Theorem operations_raise_only_hook_faults :
  (∀ response_type client_id redirect_uri params s e,
     let r := get_authorization_code build_url self response_type client_id redirect_uri
                params s in
     (result r = Raise e → ∃ c t, trace r = t ++ [Invoked c (Raise e)])
     ∧ Forall (λ ev, is_logged ev = false) (trace r))
  ∧ (∀ grant_type client_id client_secret redirect_uri code params s e,
       let r := get_token json_dumps self grant_type client_id client_secret redirect_uri
                  code params s in
       (result r = Raise e → ∃ c t, trace r = t ++ [Invoked c (Raise e)])
       ∧ Forall (λ ev, is_logged ev = false) (trace r)).
Proof.
  split.
  - intros response_type client_id redirect_uri params s e r. subst r. split.
    + apply get_authorization_code_raises_last.
    + apply get_authorization_code_never_logs.
  - intros grant_type client_id client_secret redirect_uri code params s e r. subst r.
    split.
    + apply get_token_raises_last.
    + apply get_token_never_logs.
Qed.

Lemma final_run {A} s (o : outcome A) t : final (o, s, t) = s.
Proof. done. Qed.

(** X2: whatever [get_token] returns is a JSON response with the three
    fixed headers and no other, whose body encodes an object: with status
    400 the object has the single field [error] and no persistence hook
    was invoked; with status 200 it has exactly the four token fields and
    [persist_token_information] was invoked. *)
Theorem get_token_answers_json grant_type client_id client_secret redirect_uri code
    params s resp :
  let r := get_token json_dumps self grant_type client_id client_secret redirect_uri code
             params s in
  result r = Return resp →
  headers resp = json_headers
  ∧ ∃ d : gmap string json,
      raw resp = json_dumps (JDict d)
      ∧ ((status_code resp = 400
          ∧ (∃ err, d = {[ "error" := JStr err ]})
          ∧ Forall (λ ev, invokes is_persist ev = false) (trace r))
         ∨ (status_code resp = 200
            ∧ dom d = {[ "access_token"; "token_type"; "expires_in"; "refresh_token" ]}
            ∧ Exists (λ ev, is_persist_token_information ev = true) (trace r))).
Proof.
  cbv zeta. revert resp. unfold get_token, _make_json_error_response.
  case_decide as Hgt.
  { intros resp [= <-]. split; [apply json_response_json_headers|].
    eexists. split; [reflexivity|]. left. split; [reflexivity|]. split; [by eexists|].
    constructor. }
  repeat first [run_hook | branch].
  all: rewrite ?after_ret, ?after_one, ?trace_run, ?result_run.
  all: intros resp Hresp; first [discriminate Hresp | injection Hresp as <-].
  all: split; [apply json_response_json_headers|].
  all: eexists; split; [reflexivity|].
  all: first
         [ left; split; [reflexivity|]; split; [by eexists|]; by repeat constructor
         | right; split; [reflexivity|]; split;
           [ rewrite !dom_insert_L, dom_singleton_L; set_solver
           | repeat first [apply Exists_cons_hd; reflexivity | apply Exists_cons_tl] ] ].
Qed.

(** X3: the hooks are invoked in one fixed order and each at most once:
    the methods invoked by a call of [get_authorization_code] form a
    prefix of validate_client_id, validate_access, validate_scope,
    generate_authorization_code, persist_authorization_code, and those
    invoked by a call of [get_token] a prefix of the nine methods of its
    body, whatever the hooks return or raise. *)
Theorem hooks_run_in_order :
  (∀ response_type client_id redirect_uri params s,
     invoked_hooks (trace (get_authorization_code build_url self response_type client_id
                             redirect_uri params s))
     `prefix_of` ["validate_client_id"; "validate_access"; "validate_scope";
                  "generate_authorization_code"; "persist_authorization_code"])
  ∧ (∀ grant_type client_id client_secret redirect_uri code params s,
       invoked_hooks (trace (get_token json_dumps self grant_type client_id client_secret
                               redirect_uri code params s))
       `prefix_of` ["validate_client_id"; "validate_client_secret"; "validate_scope";
                    "validate_authorization_code"; "generate_access_token"; "token_type";
                    "token_expires_in"; "generate_refresh_token";
                    "persist_token_information"]).
Proof.
  split.
  - intros response_type client_id redirect_uri params s.
    unfold get_authorization_code. case_decide; [by eexists|].
    repeat first [run_hook | branch].
    all: rewrite ?after_ret, ?after_one, ?trace_run; eexists; reflexivity.
  - intros grant_type client_id client_secret redirect_uri code params s.
    unfold get_token. case_decide; [by eexists|].
    repeat first [run_hook | branch].
    all: rewrite ?after_ret, ?after_one, ?trace_run; eexists; reflexivity.
Qed.

(** Uses the purity of the validation hooks on the hook that has just
    run. *)
Ltac pure_hook P1 P2 P3 P4 P5 :=
  match goal with
  | Hh : _ = (_, ?s1) |- _ =>
      is_var s1; apply (f_equal snd) in Hh; cbn [snd] in Hh;
      rewrite ?P1, ?P2, ?P3, ?P4, ?P5 in Hh; subst s1
  end.

(** X8: with validation hooks that leave the host's state as it is, a
    request that fails a check leaves the host's state as it was: after a
    call of [get_authorization_code] or [get_token] in which the type
    asked for is not the supported one or a validation hook returned
    false, the state is the one before the call. *)
Theorem failed_request_keeps_state :
  pure_validation self →
  (∀ response_type client_id redirect_uri params s,
     let r := get_authorization_code build_url self response_type client_id redirect_uri
                params s in
     response_type ≠ "code" ∨ check_failed (trace r) → final r = s)
  ∧ (∀ grant_type client_id client_secret redirect_uri code params s,
       let r := get_token json_dumps self grant_type client_id client_secret redirect_uri
                  code params s in
       grant_type ≠ "authorization_code" ∨ check_failed (trace r) → final r = s).
Proof.
  intros (P1 & P2 & P3 & P4 & P5). split.
  - intros response_type client_id redirect_uri params s. cbv zeta.
    unfold get_authorization_code. case_decide as Hrt; [done|].
    repeat first [run_hook; pure_hook P1 P2 P3 P4 P5 | branch].
    all: rewrite ?after_ret, ?after_one, ?trace_run, ?final_run.
    all: intros [Hne|Hfailed]; [by destruct Hne|].
    all: first [reflexivity | apply check_failed_existsb in Hfailed; discriminate Hfailed].
  - intros grant_type client_id client_secret redirect_uri code params s. cbv zeta.
    unfold get_token. case_decide as Hgt; [done|].
    repeat first [run_hook; pure_hook P1 P2 P3 P4 P5 | branch].
    all: rewrite ?after_ret, ?after_one, ?trace_run, ?final_run.
    all: intros [Hne|Hfailed]; [by destruct Hne|].
    all: first [reflexivity | apply check_failed_existsb in Hfailed; discriminate Hfailed].
Qed.

(** Runs the next hook on both sides of a comparison of two calls. *)
Ltac run_hook_both :=
  match goal with
  | |- context [bind (invoke ?c ?inj ?h) _ ?s] =>
      let Hh := fresh "Hhook" in
      destruct (h s) as [[? | ?] ?] eqn:Hh;
      [ rewrite !(bind_invoke_Return _ _ _ _ _ _ _ Hh)
      | rewrite !(bind_invoke_Raise _ _ _ _ _ _ _ Hh) ]
  end.

(** X9: the hooks see the client id, the secret, the code and the scope,
    and nothing else of a request.  Two calls of [get_token] that differ
    in the [redirect_uri] and in the extra parameters other than [scope]
    are the same run; two such calls of [get_authorization_code] invoke
    the same hooks with the same arguments and outcomes, leave the host in
    the same state, and end with the same exception if they end with
    one. *)
Theorem hooks_see_no_redirect_uri :
  (∀ grant_type client_id client_secret code redirect_uri redirect_uri' params params' s,
     get_scope params = get_scope params' →
     get_token json_dumps self grant_type client_id client_secret redirect_uri code params s
     = get_token json_dumps self grant_type client_id client_secret redirect_uri' code
         params' s)
  ∧ (∀ response_type client_id redirect_uri redirect_uri' params params' s,
       get_scope params = get_scope params' →
       let r := get_authorization_code build_url self response_type client_id redirect_uri
                  params s in
       let r' := get_authorization_code build_url self response_type client_id
                   redirect_uri' params' s in
       trace r = trace r' ∧ final r = final r'
       ∧ ∀ e, result r = Raise e ↔ result r' = Raise e).
Proof.
  split.
  - intros grant_type client_id client_secret code redirect_uri redirect_uri' params
      params' s Hscope.
    unfold get_token. by rewrite Hscope.
  - intros response_type client_id redirect_uri redirect_uri' params params' s Hscope.
    cbv zeta. unfold get_authorization_code. rewrite Hscope.
    case_decide.
    { unfold ret. rewrite !trace_run, !final_run, !result_run.
      split; [reflexivity|]. split; [reflexivity|]. intros e. split; intros [=]. }
    repeat first [run_hook_both | branch].
    all: rewrite ?after_ret, ?after_one, ?trace_run, ?final_run, ?result_run.
    all: split; [reflexivity|]; split; [reflexivity|].
    all: intros exc; split; intros Hexc; first [discriminate Hexc | exact Hexc].
Qed.

(** Finds the event [H] says is in a list of known events. *)
Ltac which_event H :=
  first
    [ by apply elem_of_nil in H
    | let H1 := fresh in
      let H2 := fresh in
      apply elem_of_cons in H; destruct H as [H1|H2];
      [ first [discriminate H1 | by simplify_eq] | which_event H2 ] ].

(** X10: a persistence hook is invoked only at the end of a run in which
    every check returned true, and with what that run produced.  When the
    trace of [get_authorization_code] holds an invocation of
    [persist_authorization_code], it is for the caller's client id, the
    scope that was validated and the code the generator returned, and the
    trace is the three checks returning true, the generator and that
    invocation; likewise for [get_token] and
    [persist_token_information]. *)
Theorem persist_ends_a_valid_run :
  (∀ response_type client_id redirect_uri params s client_id' code' scope' o,
     let r := get_authorization_code build_url self response_type client_id redirect_uri
                params s in
     Invoked (CPersistAuthorizationCode client_id' code' scope') o ∈ trace r →
     response_type = "code"
     ∧ trace r =
         [Invoked (CValidateClientId client_id) (Return (VBool true));
          Invoked CValidateAccess (Return (VBool true));
          Invoked (CValidateScope client_id (get_scope params)) (Return (VBool true));
          Invoked CGenerateAuthorizationCode (Return (VStr code'));
          Invoked (CPersistAuthorizationCode client_id code' (get_scope params)) o]
     ∧ client_id' = client_id ∧ scope' = get_scope params)
  ∧ (∀ grant_type client_id client_secret redirect_uri code params s
       client_id' code' scope' access_token type expires_in refresh_token o,
       let r := get_token json_dumps self grant_type client_id client_secret redirect_uri
                  code params s in
       Invoked (CPersistTokenInformation client_id' code' scope' access_token type
                  expires_in refresh_token) o ∈ trace r →
       grant_type = "authorization_code"
       ∧ trace r =
           [Invoked (CValidateClientId client_id) (Return (VBool true));
            Invoked (CValidateClientSecret client_id client_secret) (Return (VBool true));
            Invoked (CValidateScope client_id (get_scope params)) (Return (VBool true));
            Invoked (CValidateAuthorizationCode client_id code) (Return (VBool true));
            Invoked CGenerateAccessToken (Return (VStr access_token));
            Invoked CTokenType (Return (VStr type));
            Invoked CTokenExpiresIn (Return (VInt expires_in));
            Invoked CGenerateRefreshToken (Return (VStr refresh_token));
            Invoked (CPersistTokenInformation client_id code (get_scope params)
                       access_token type expires_in refresh_token) o]
       ∧ client_id' = client_id ∧ code' = code ∧ scope' = get_scope params).
Proof.
  split.
  - intros response_type client_id redirect_uri params s client_id' code' scope' o.
    cbv zeta. unfold get_authorization_code. case_decide as Hrt.
    { unfold ret. rewrite trace_run. intros H. by apply elem_of_nil in H. }
    repeat first [run_hook | branch].
    all: rewrite ?after_ret, ?after_one, ?trace_run; intros Hin; which_event Hin.
  - intros grant_type client_id client_secret redirect_uri code params s
      client_id' code' scope' access_token type expires_in refresh_token o.
    cbv zeta. unfold get_token. case_decide as Hgt.
    { unfold ret. rewrite trace_run. intros H. by apply elem_of_nil in H. }
    repeat first [run_hook | branch].
    all: rewrite ?after_ret, ?after_one, ?trace_run; intros Hin; which_event Hin.
Qed.

End Answers.

(** ** More on the entry points *)

Section MoreEntryPoints.
Context {S : Type} {order : DictOrder}.
Variable build_url : string → gmap string (option string) → string.
Variable url_query_params : string → gmap string string.
Variable json_dumps : json → string.
Variable self : AuthorizationProvider (S := S).
Implicit Types (s : S) (kwargs : gmap string string) (e : exn).

Local Abbreviation redirect_error := (_make_redirect_error_response build_url).
Local Abbreviation json_error := (_make_json_error_response json_dumps).
Local Abbreviation authorize_from_url :=
  (get_authorization_code_from_url build_url url_query_params json_dumps self).
Local Abbreviation token_from_url := (get_token_from_url url_query_params json_dumps self).

(** A mapping that has every named parameter, and none called [self],
    unpacks into the call of the operation on its other entries. *)
Lemma apply_get_authorization_code_bound kwargs response_type client_id redirect_uri :
  kwargs !! "self" = None →
  kwargs !! "response_type" = Some response_type →
  kwargs !! "client_id" = Some client_id →
  kwargs !! "redirect_uri" = Some redirect_uri →
  apply_get_authorization_code build_url self kwargs
  = get_authorization_code build_url self response_type client_id redirect_uri
      (authorize_extras kwargs).
Proof.
  intros Hself Hrt Hcid Hru. unfold apply_get_authorization_code, authorize_extras.
  rewrite Hself, Hrt, Hcid, Hru. rewrite decide_False by (by intros [? ?]). reflexivity.
Qed.

Lemma apply_get_token_bound kwargs grant_type client_id client_secret redirect_uri code :
  kwargs !! "self" = None →
  kwargs !! "grant_type" = Some grant_type →
  kwargs !! "client_id" = Some client_id →
  kwargs !! "client_secret" = Some client_secret →
  kwargs !! "redirect_uri" = Some redirect_uri →
  kwargs !! "code" = Some code →
  apply_get_token json_dumps self kwargs
  = get_token json_dumps self grant_type client_id client_secret redirect_uri code
      (token_extras kwargs).
Proof.
  intros Hself Hgt Hcid Hsecret Hru Hcode. unfold apply_get_token, token_extras.
  rewrite Hself, Hgt, Hcid, Hsecret, Hru, Hcode.
  rewrite decide_False by (by intros [? ?]). reflexivity.
Qed.

(** What [get_authorization_code_from_url] makes of its [try] statement:
    either the call could not be made, or the operation ran and its run is
    kept, but for an exception below [StandardError], which is logged and
    answered. *)
Lemma get_authorization_code_from_url_cases url s :
  let params := url_query_params url in
  let r := authorize_from_url url s in
  (∃ msg,
     r = (Return (match params !! "redirect_uri" with
                  | Some u => redirect_error u "invalid_request"
                  | None => _missing_redirect_uri_response json_dumps
                  end), s, [Logged (TypeError msg)]))
  ∨ (∃ response_type client_id redirect_uri rest,
       params !! "redirect_uri" = Some redirect_uri
       ∧ ∃ o s1 t1,
           get_authorization_code build_url self response_type client_id redirect_uri rest s
           = (o, s1, t1)
           ∧ match o with
             | Return _ => r = (o, s1, t1)
             | Raise e =>
                 if isinstance_TypeError e then
                   r = (Return (redirect_error redirect_uri "invalid_request"), s1,
                        t1 ++ [Logged e])
                 else if isinstance_StandardError e then
                   r = (Return (redirect_error redirect_uri "server_error"), s1,
                        t1 ++ [Logged e])
                 else r = (o, s1, t1)
             end).
Proof.
  intros params r. subst r. rewrite get_authorization_code_from_url_run. cbv zeta.
  fold params.
  destruct (apply_get_authorization_code_cases build_url self params s)
    as [[msg Hrun]|(rt & cid & ru & rest & Hu & Hrun)].
  - left. exists msg. by rewrite Hrun.
  - right. exists rt, cid, ru, rest. split; [done|]. rewrite Hrun, Hu.
    destruct (get_authorization_code build_url self rt cid ru rest s) as [[o s1] t1].
    exists o, s1, t1. split; [done|].
    destruct o as [resp|e]; [done|].
    by destruct (isinstance_TypeError e), (isinstance_StandardError e).
Qed.

Lemma get_token_from_url_cases url s :
  let r := token_from_url url s in
  (∃ msg, r = (Return (json_error "invalid_request"), s, [Logged (TypeError msg)]))
  ∨ (∃ grant_type client_id client_secret redirect_uri code rest o s1 t1,
       get_token json_dumps self grant_type client_id client_secret redirect_uri code rest s
       = (o, s1, t1)
       ∧ match o with
         | Return _ => r = (o, s1, t1)
         | Raise e =>
             if isinstance_TypeError e then
               r = (Return (json_error "invalid_request"), s1, t1 ++ [Logged e])
             else if isinstance_StandardError e then
               r = (Return (json_error "server_error"), s1, t1 ++ [Logged e])
             else r = (o, s1, t1)
         end).
Proof.
  intros r. subst r. rewrite get_token_from_url_run.
  destruct (apply_get_token_cases json_dumps self (url_query_params url) s)
    as [[msg Hrun]|(gt & cid & secret & ru & code & rest & Hrun)].
  - left. exists msg. by rewrite Hrun.
  - right. exists gt, cid, secret, ru, code, rest. rewrite Hrun.
    destruct (get_token json_dumps self gt cid secret ru code rest s) as [[o s1] t1].
    exists o, s1, t1. split; [done|].
    destruct o as [resp|e]; [done|].
    by destruct (isinstance_TypeError e), (isinstance_StandardError e).
Qed.

(** X5: no exception below [StandardError] leaves an entry point
    ([build_url], [url_query_params] and [json.dumps] taken as total), the
    [KeyError] of the lookup of [redirect_uri] in the [server_error] clause
    included: an exception that ends [get_authorization_code_from_url] or
    [get_token_from_url] has a class outside [StandardError] and was raised
    by the hook invoked last, after which nothing was logged. *)
Theorem entry_points_leak_no_StandardError url s e :
  (result (authorize_from_url url s) = Raise e →
     isinstance_StandardError e = false
     ∧ ∃ c t, trace (authorize_from_url url s) = t ++ [Invoked c (Raise e)])
  ∧ (result (token_from_url url s) = Raise e →
       isinstance_StandardError e = false
       ∧ ∃ c t, trace (token_from_url url s) = t ++ [Invoked c (Raise e)]).
Proof.
  split.
  - destruct (get_authorization_code_from_url_cases url s)
      as [[msg ->]|(rt & cid & ru & rest & _ & o & s1 & t1 & Hop & Hr)]; [done|].
    pose proof (get_authorization_code_raises_last build_url self rt cid ru rest s) as Hlast.
    rewrite Hop in Hlast. destruct o as [resp|e'].
    + by rewrite Hr.
    + destruct (isinstance_TypeError e'); [by rewrite Hr|].
      destruct (isinstance_StandardError e') eqn:Hstd; [by rewrite Hr|].
      rewrite Hr. intros [= ->]. split; [done|]. by apply Hlast.
  - destruct (get_token_from_url_cases url s)
      as [[msg ->]|(gt & cid & secret & ru & code & rest & o & s1 & t1 & Hop & Hr)]; [done|].
    pose proof (get_token_raises_last json_dumps self gt cid secret ru code rest s) as Hlast.
    rewrite Hop in Hlast. destruct o as [resp|e'].
    + by rewrite Hr.
    + destruct (isinstance_TypeError e'); [by rewrite Hr|].
      destruct (isinstance_StandardError e') eqn:Hstd; [by rewrite Hr|].
      rewrite Hr. intros [= ->]. split; [done|]. by apply Hlast.
Qed.

(** X6: an entry point adds nothing to a request that is answered: when
    the parsed parameters hold every named parameter and none called
    [self], and the operation, called with them and with the other
    parameters as extras, returns a response, the entry point is that very
    run: the same response, the same state of the host, the same trace,
    and nothing logged. *)
Theorem entry_points_pass_answers_through url s :
  let params := url_query_params url in
  params !! "self" = None →
  (∀ response_type client_id redirect_uri resp,
     params !! "response_type" = Some response_type →
     params !! "client_id" = Some client_id →
     params !! "redirect_uri" = Some redirect_uri →
     let r := get_authorization_code build_url self response_type client_id redirect_uri
                (authorize_extras params) s in
     result r = Return resp → authorize_from_url url s = r)
  ∧ (∀ grant_type client_id client_secret redirect_uri code resp,
       params !! "grant_type" = Some grant_type →
       params !! "client_id" = Some client_id →
       params !! "client_secret" = Some client_secret →
       params !! "redirect_uri" = Some redirect_uri →
       params !! "code" = Some code →
       let r := get_token json_dumps self grant_type client_id client_secret redirect_uri
                  code (token_extras params) s in
       result r = Return resp → token_from_url url s = r).
Proof.
  intros params Hself. split.
  - intros rt cid ru resp Hrt Hcid Hru r Hresp. subst r.
    rewrite get_authorization_code_from_url_run. cbv zeta. fold params.
    rewrite (apply_get_authorization_code_bound _ _ _ _ Hself Hrt Hcid Hru).
    destruct (get_authorization_code build_url self rt cid ru (authorize_extras params) s)
      as [[[resp'|e] s1] t1]; [reflexivity|discriminate Hresp].
  - intros gt cid secret ru code resp Hgt Hcid Hsecret Hru Hcode r Hresp. subst r.
    rewrite get_token_from_url_run. fold params.
    rewrite (apply_get_token_bound _ _ _ _ _ _ Hself Hgt Hcid Hsecret Hru Hcode).
    destruct (get_token json_dumps self gt cid secret ru code (token_extras params) s)
      as [[[resp'|e] s1] t1]; [reflexivity|discriminate Hresp].
Qed.

Lemma elem_of_snoc_Logged e e' (t : list event) :
  Forall (λ ev, is_logged ev = false) t → Logged e ∈ t ++ [Logged e'] → e = e'.
Proof.
  intros Ht [Hin|Hin]%elem_of_app.
  - rewrite Forall_forall in Ht. by specialize (Ht _ Hin).
  - apply list_elem_of_singleton in Hin. by injection Hin.
Qed.

(** X7: the logger is handed exactly the exceptions an entry point
    answers for.  When the trace of an entry point holds a logged
    exception, its class is below [StandardError], it is the last event
    and the only one logged, and the entry point returns the error
    response of its class: [invalid_request] for a [TypeError] and
    [server_error] for any other. *)
Theorem logged_exceptions_are_answered url s e :
  let params := url_query_params url in
  (Logged e ∈ trace (authorize_from_url url s) →
     isinstance_StandardError e = true
     ∧ (∃ t, trace (authorize_from_url url s) = t ++ [Logged e]
             ∧ Forall (λ ev, is_logged ev = false) t)
     ∧ result (authorize_from_url url s)
       = Return (match params !! "redirect_uri" with
                 | Some u =>
                     redirect_error u (if isinstance_TypeError e then "invalid_request"
                                       else "server_error")
                 | None => _missing_redirect_uri_response json_dumps
                 end))
  ∧ (Logged e ∈ trace (token_from_url url s) →
       isinstance_StandardError e = true
       ∧ (∃ t, trace (token_from_url url s) = t ++ [Logged e]
               ∧ Forall (λ ev, is_logged ev = false) t)
       ∧ result (token_from_url url s)
         = Return (json_error (if isinstance_TypeError e then "invalid_request"
                               else "server_error"))).
Proof.
  intros params. split.
  - destruct (get_authorization_code_from_url_cases url s)
      as [[msg ->]|(rt & cid & ru & rest & Hu & o & s1 & t1 & Hop & Hr)].
    + rewrite trace_run, result_run. intros [= ->]%list_elem_of_singleton.
      split; [done|]. split; [by exists []|]. fold params.
      by destruct (params !! "redirect_uri").
    + pose proof (get_authorization_code_never_logs build_url self rt cid ru rest s)
        as Hquiet.
      rewrite Hop, trace_run in Hquiet. fold params in Hu. rewrite Hu.
      destruct o as [resp|e'].
      { rewrite Hr, trace_run. intros Hin. rewrite Forall_forall in Hquiet.
        by specialize (Hquiet _ Hin). }
      destruct (isinstance_TypeError e') eqn:Hty;
        [|destruct (isinstance_StandardError e') eqn:Hstd].
      * rewrite Hr, trace_run, result_run.
        intros ->%(elem_of_snoc_Logged _ _ _ Hquiet). rewrite Hty.
        split; [by destruct e'|]. split; [by exists t1|done].
      * rewrite Hr, trace_run, result_run.
        intros ->%(elem_of_snoc_Logged _ _ _ Hquiet). rewrite Hty.
        split; [done|]. split; [by exists t1|done].
      * rewrite Hr, trace_run. intros Hin. rewrite Forall_forall in Hquiet.
        by specialize (Hquiet _ Hin).
  - destruct (get_token_from_url_cases url s)
      as [[msg ->]|(gt & cid & secret & ru & code & rest & o & s1 & t1 & Hop & Hr)].
    + rewrite trace_run, result_run. intros [= ->]%list_elem_of_singleton.
      split; [done|]. split; [by exists []|done].
    + pose proof (get_token_never_logs json_dumps self gt cid secret ru code rest s)
        as Hquiet.
      rewrite Hop, trace_run in Hquiet.
      destruct o as [resp|e'].
      { rewrite Hr, trace_run. intros Hin. rewrite Forall_forall in Hquiet.
        by specialize (Hquiet _ Hin). }
      destruct (isinstance_TypeError e') eqn:Hty;
        [|destruct (isinstance_StandardError e') eqn:Hstd].
      * rewrite Hr, trace_run, result_run.
        intros ->%(elem_of_snoc_Logged _ _ _ Hquiet). rewrite Hty.
        split; [by destruct e'|]. split; [by exists t1|done].
      * rewrite Hr, trace_run, result_run.
        intros ->%(elem_of_snoc_Logged _ _ _ Hquiet). rewrite Hty.
        split; [done|]. split; [by exists t1|done].
      * rewrite Hr, trace_run. intros Hin. rewrite Forall_forall in Hquiet.
        by specialize (Hquiet _ Hin).
Qed.

(** X12: a parameter called [self] in the query makes the request
    invalid, whatever else it holds: the call cannot be made, no hook is
    invoked, the [TypeError] is logged, and the answer is
    [invalid_request]. *)
Theorem self_parameter_is_invalid_request url s :
  let params := url_query_params url in
  is_Some (params !! "self") →
  (∃ msg,
     authorize_from_url url s =
       (Return (match params !! "redirect_uri" with
                | Some u => redirect_error u "invalid_request"
                | None => _missing_redirect_uri_response json_dumps
                end), s, [Logged (TypeError msg)]))
  ∧ (∃ msg,
       token_from_url url s =
         (Return (json_error "invalid_request"), s, [Logged (TypeError msg)])).
Proof.
  intros params Hself. split.
  - eexists. rewrite get_authorization_code_from_url_run. cbv zeta. fold params.
    unfold apply_get_authorization_code. rewrite decide_True by done. reflexivity.
  - eexists. rewrite get_token_from_url_run. fold params.
    unfold apply_get_token. rewrite decide_True by done. reflexivity.
Qed.

End MoreEntryPoints.

(** ** The base class used as it is *)

Section BaseClass.
Context {S : Type} {order : DictOrder}.
Variable build_url : string → gmap string (option string) → string.
Variable url_query_params : string → gmap string string.
Variable json_dumps : json → string.
Variable random_ascii_string : Z → hook S string.
Implicit Types (s : S).

(** X11: the base class issues nothing.  With the methods of
    [AuthorizationProvider] as they are, [get_authorization_code] asked
    for a code and [get_token] asked for an authorization-code grant end
    with the [NotImplementedError] of [validate_client_id], the first hook
    they invoke, the host's state untouched; and
    [get_authorization_code_from_url], given every named parameter,
    answers that request with the [server_error] redirect and logs the
    exception. *)
Theorem base_class_issues_nothing :
  let self := base random_ascii_string in
  let e := NotImplementedError "Subclasses must implement validate_client_id." in
  (∀ client_id redirect_uri params s,
     get_authorization_code build_url self "code" client_id redirect_uri params s
     = (Raise e, s, [Invoked (CValidateClientId client_id) (Raise e)]))
  ∧ (∀ client_id client_secret redirect_uri code params s,
       get_token json_dumps self "authorization_code" client_id client_secret redirect_uri
         code params s
       = (Raise e, s, [Invoked (CValidateClientId client_id) (Raise e)]))
  ∧ (∀ url client_id redirect_uri s,
       url_query_params url !! "self" = None →
       url_query_params url !! "response_type" = Some "code" →
       url_query_params url !! "client_id" = Some client_id →
       url_query_params url !! "redirect_uri" = Some redirect_uri →
       get_authorization_code_from_url build_url url_query_params json_dumps self url s
       = (Return (_make_redirect_error_response build_url redirect_uri "server_error"), s,
          [Invoked (CValidateClientId client_id) (Raise e); Logged e])).
Proof.
  intros self e.
  assert (∀ client_id redirect_uri params s,
            get_authorization_code build_url self "code" client_id redirect_uri params s
            = (Raise e, s, [Invoked (CValidateClientId client_id) (Raise e)])) as Hcode.
  { intros client_id redirect_uri params s. unfold get_authorization_code.
    rewrite decide_False by (intros H; by apply H).
    by apply bind_invoke_Raise. }
  split; [exact Hcode|]. split.
  - intros client_id client_secret redirect_uri code params s. unfold get_token.
    rewrite decide_False by (intros H; by apply H).
    by apply bind_invoke_Raise.
  - intros url client_id redirect_uri s Hself Hrt Hcid Hru.
    rewrite get_authorization_code_from_url_run. cbv zeta.
    rewrite (apply_get_authorization_code_bound _ _ _ _ _ _ Hself Hrt Hcid Hru).
    by rewrite Hcode, Hru.
Qed.

End BaseClass.

(** ** The further properties on the in-memory host *)

Section MoreScenarios.
#[local] Existing Instance cpython2.order.

Lemma get_authorization_code_answers_redirect_witness :
  status_code (_make_redirect_error_response utils.build_url "https://app/cb"
                 "access_denied") = 302.
Proof.
  assert (result (get_authorization_code utils.build_url Memory.demo "code" "client1"
                    "https://app/cb" Memory.extra (Memory.empty false))
          = Return (_make_redirect_error_response utils.build_url "https://app/cb"
                      "access_denied")) as Hresult by (vm_compute; reflexivity).
  exact (proj1 (get_authorization_code_answers_redirect utils.build_url Memory.demo "code"
                  "client1" "https://app/cb" Memory.extra (Memory.empty false) _ Hresult)).
Defined.

Lemma get_token_answers_json_witness :
  headers (_make_json_error_response JSON.dumps "invalid_grant") = json_headers.
Proof.
  assert (result (get_token JSON.dumps Memory.demo "authorization_code" "client1" "secret1"
                    "https://app/cb" "badcode" ∅ Memory.authorized)
          = Return (_make_json_error_response JSON.dumps "invalid_grant")) as Hresult
    by (vm_compute; reflexivity).
  exact (proj1 (get_token_answers_json JSON.dumps Memory.demo "authorization_code"
                  "client1" "secret1" "https://app/cb" "badcode" ∅ Memory.authorized _
                  Hresult)).
Defined.

Lemma operations_raise_only_hook_faults_witness :
  ∃ c t,
    trace (get_authorization_code utils.build_url
             (Memory.failing_scope (Exception "StorageError") Memory.demo) "code" "client1"
             "https://app/cb" Memory.extra (Memory.empty true))
    = t ++ [Invoked c (Raise (Exception "StorageError"))].
Proof.
  assert (result (get_authorization_code utils.build_url
                    (Memory.failing_scope (Exception "StorageError") Memory.demo) "code"
                    "client1" "https://app/cb" Memory.extra (Memory.empty true))
          = Raise (Exception "StorageError")) as Hresult by (vm_compute; reflexivity).
  exact (proj1 (proj1 (operations_raise_only_hook_faults utils.build_url JSON.dumps
                         (Memory.failing_scope (Exception "StorageError") Memory.demo))
                  "code" "client1" "https://app/cb" Memory.extra (Memory.empty true)
                  (Exception "StorageError")) Hresult).
Defined.

Lemma entry_points_leak_no_StandardError_witness :
  isinstance_StandardError (Exception "StorageError") = false
  ∧ ∃ c t,
      trace (get_authorization_code_from_url utils.build_url utils.url_query_params
               JSON.dumps (Memory.failing_scope (Exception "StorageError") Memory.demo)
               Memory.authorize_url (Memory.empty true))
      = t ++ [Invoked c (Raise (Exception "StorageError"))].
Proof.
  assert (result (get_authorization_code_from_url utils.build_url utils.url_query_params
                    JSON.dumps (Memory.failing_scope (Exception "StorageError") Memory.demo)
                    Memory.authorize_url (Memory.empty true))
          = Raise (Exception "StorageError")) as Hresult by (vm_compute; reflexivity).
  exact (proj1 (entry_points_leak_no_StandardError utils.build_url utils.url_query_params
                  JSON.dumps (Memory.failing_scope (Exception "StorageError") Memory.demo)
                  Memory.authorize_url (Memory.empty true) (Exception "StorageError"))
           Hresult).
Defined.

Lemma entry_points_pass_answers_through_witness :
  get_authorization_code_from_url utils.build_url utils.url_query_params JSON.dumps
    Memory.demo Memory.authorize_url (Memory.empty true)
  = get_authorization_code utils.build_url Memory.demo "code" "client1" "https://app/cb"
      (authorize_extras (utils.url_query_params Memory.authorize_url)) (Memory.empty true).
Proof.
  assert (utils.url_query_params Memory.authorize_url !! "self" = None) as Hself
    by (vm_compute; reflexivity).
  assert (utils.url_query_params Memory.authorize_url !! "response_type" = Some "code")
    as Hrt by (vm_compute; reflexivity).
  assert (utils.url_query_params Memory.authorize_url !! "client_id" = Some "client1")
    as Hcid by (vm_compute; reflexivity).
  assert (utils.url_query_params Memory.authorize_url !! "redirect_uri"
          = Some "https://app/cb") as Hru by (vm_compute; reflexivity).
  assert (result (get_authorization_code utils.build_url Memory.demo "code" "client1"
                    "https://app/cb"
                    (authorize_extras (utils.url_query_params Memory.authorize_url))
                    (Memory.empty true))
          = Return Scenario.granted) as Hresult by (vm_compute; reflexivity).
  exact (proj1 (entry_points_pass_answers_through utils.build_url utils.url_query_params
                  JSON.dumps Memory.demo Memory.authorize_url (Memory.empty true) Hself)
           "code" "client1" "https://app/cb" Scenario.granted Hrt Hcid Hru Hresult).
Defined.

Lemma logged_exceptions_are_answered_witness :
  ∃ t,
    trace (get_authorization_code_from_url utils.build_url utils.url_query_params JSON.dumps
             (Memory.failing_scope (StandardError "IOError") Memory.demo)
             Memory.authorize_url (Memory.empty true))
    = t ++ [Logged (StandardError "IOError")]
    ∧ Forall (λ ev, is_logged ev = false) t.
Proof.
  assert (Logged (StandardError "IOError")
          ∈ trace (get_authorization_code_from_url utils.build_url utils.url_query_params
                     JSON.dumps (Memory.failing_scope (StandardError "IOError") Memory.demo)
                     Memory.authorize_url (Memory.empty true))) as Hlogged.
  { vm_compute. do 3 apply list_elem_of_further. apply list_elem_of_here. }
  exact (proj1 (proj2 (proj1 (logged_exceptions_are_answered utils.build_url
                                utils.url_query_params JSON.dumps
                                (Memory.failing_scope (StandardError "IOError") Memory.demo)
                                Memory.authorize_url (Memory.empty true)
                                (StandardError "IOError")) Hlogged))).
Defined.

Lemma failed_request_keeps_state_witness :
  final (get_authorization_code utils.build_url Memory.demo "code" "client1"
           "https://app/cb" Memory.extra (Memory.empty false))
  = Memory.empty false.
Proof.
  assert (pure_validation Memory.demo) as Hpure by (repeat split).
  assert (check_failed
            (trace (get_authorization_code utils.build_url Memory.demo "code" "client1"
                      "https://app/cb" Memory.extra (Memory.empty false)))) as Hfailed.
  { exists CValidateAccess. split; [reflexivity|].
    vm_compute. apply list_elem_of_further, list_elem_of_here. }
  exact (proj1 (failed_request_keeps_state utils.build_url JSON.dumps Memory.demo Hpure)
           "code" "client1" "https://app/cb" Memory.extra (Memory.empty false)
           (or_intror Hfailed)).
Defined.

Lemma hooks_see_no_redirect_uri_witness :
  get_token JSON.dumps Memory.demo "authorization_code" "client1" "secret1"
    "https://app/cb" "code0" Memory.extra Memory.authorized
  = get_token JSON.dumps Memory.demo "authorization_code" "client1" "secret1"
      "https://elsewhere/cb" "code0" Scenario.scope_only Memory.authorized.
Proof.
  assert (get_scope Memory.extra = get_scope Scenario.scope_only) as Hscope
    by (vm_compute; reflexivity).
  exact (proj1 (hooks_see_no_redirect_uri utils.build_url JSON.dumps Memory.demo)
           "authorization_code" "client1" "secret1" "code0" "https://app/cb"
           "https://elsewhere/cb" Memory.extra Scenario.scope_only Memory.authorized Hscope).
Defined.

Lemma persist_ends_a_valid_run_witness :
  trace (get_authorization_code utils.build_url Memory.demo "code" "client1"
           "https://app/cb" Memory.extra (Memory.empty true))
  = [Invoked (CValidateClientId "client1") (Return (VBool true));
     Invoked CValidateAccess (Return (VBool true));
     Invoked (CValidateScope "client1" (get_scope Memory.extra)) (Return (VBool true));
     Invoked CGenerateAuthorizationCode (Return (VStr "code0"));
     Invoked (CPersistAuthorizationCode "client1" "code0" (get_scope Memory.extra))
       (Return VNone)].
Proof.
  assert (Invoked (CPersistAuthorizationCode "client1" "code0" "read") (Return VNone)
          ∈ trace (get_authorization_code utils.build_url Memory.demo "code" "client1"
                     "https://app/cb" Memory.extra (Memory.empty true))) as Hin.
  { vm_compute. do 4 apply list_elem_of_further. apply list_elem_of_here. }
  exact (proj1 (proj2 (proj1 (persist_ends_a_valid_run utils.build_url JSON.dumps
                                Memory.demo)
                         "code" "client1" "https://app/cb" Memory.extra (Memory.empty true)
                         "client1" "code0" "read" (Return VNone) Hin))).
Defined.

Lemma base_class_issues_nothing_witness :
  get_authorization_code_from_url utils.build_url utils.url_query_params JSON.dumps
    (base Scenario.no_entropy) Memory.authorize_url ()
  = (Return (_make_redirect_error_response utils.build_url "https://app/cb" "server_error"),
     (),
     [Invoked (CValidateClientId "client1")
        (Raise (NotImplementedError "Subclasses must implement validate_client_id."));
      Logged (NotImplementedError "Subclasses must implement validate_client_id.")]).
Proof.
  assert (utils.url_query_params Memory.authorize_url !! "self" = None) as Hself
    by (vm_compute; reflexivity).
  assert (utils.url_query_params Memory.authorize_url !! "response_type" = Some "code")
    as Hrt by (vm_compute; reflexivity).
  assert (utils.url_query_params Memory.authorize_url !! "client_id" = Some "client1")
    as Hcid by (vm_compute; reflexivity).
  assert (utils.url_query_params Memory.authorize_url !! "redirect_uri"
          = Some "https://app/cb") as Hru by (vm_compute; reflexivity).
  exact (proj2 (proj2 (base_class_issues_nothing utils.build_url utils.url_query_params
                         JSON.dumps Scenario.no_entropy))
           Memory.authorize_url "client1" "https://app/cb" () Hself Hrt Hcid Hru).
Defined.

Lemma self_parameter_is_invalid_request_witness :
  ∃ msg,
    get_authorization_code_from_url utils.build_url utils.url_query_params JSON.dumps
      Memory.demo Scenario.self_url (Memory.empty true)
    = (Return (match utils.url_query_params Scenario.self_url !! "redirect_uri" with
               | Some u => _make_redirect_error_response utils.build_url u "invalid_request"
               | None => _missing_redirect_uri_response JSON.dumps
               end), Memory.empty true, [Logged (TypeError msg)]).
Proof.
  assert (is_Some (utils.url_query_params Scenario.self_url !! "self")) as Hself.
  { exists "me". vm_compute. reflexivity. }
  exact (proj1 (self_parameter_is_invalid_request utils.build_url utils.url_query_params
                  JSON.dumps Memory.demo Scenario.self_url (Memory.empty true) Hself)).
Defined.

End MoreScenarios.
